(** * spur-chat-agent: conversation state and message orchestration

    A shallow embedding of the backend of the chat agent:
    - [backend/src/db/migrate.ts]  the two tables and their constraints,
    - [backend/src/llm.ts]         [generateReply],
    - [backend/src/index.ts]       the handlers of [POST /chat/message] and
                                   [GET /chat/history/:sessionId].

    JavaScript strings are sequences of UTF-16 code units, SQLite tables are
    lists of rows in rowid order, and the handlers run in a small monad that
    threads the database and an SQLite error through the prepared statements. *)

From Stdlib Require Import String Ascii ZArith NArith QArith Bool Lia List.
From Stdlib Require Import Sorting.Sorted Sorting.Permutation.
Import ListNotations.

(* ===================================================================== *)
(** ** JavaScript strings *)
(* ===================================================================== *)

Module JsString.

(** A JavaScript string: its UTF-16 code units, so [length] is [.length]. *)
Definition jsstring := list N.

(** An ASCII literal of the source as a JavaScript string. *)
Definition lit (s : string) : jsstring :=
  map N_of_ascii (list_ascii_of_string s).

Fixpoint eqb (s t : jsstring) : bool :=
  match s, t with
  | [], [] => true
  | a :: s', b :: t' => N.eqb a b && eqb s' t'
  | _, _ => false
  end.

(** [!s] on a string: only the empty string is falsy. *)
Definition falsy (s : jsstring) : bool :=
  match s with [] => true | _ :: _ => false end.

(** ECMAScript WhiteSpace and LineTerminator code points, the characters
    [String.prototype.trim] strips: TAB, LF, VT, FF, CR, SP, NBSP, the other
    space separators (category Zs), LS, PS and the byte order mark. *)
Definition isWhiteSpace (c : N) : bool :=
  ((9 <=? c) && (c <=? 13) ||
   (c =? 32) || (c =? 160) || (c =? 5760) ||
   ((8192 <=? c) && (c <=? 8202)) ||
   (c =? 8232) || (c =? 8233) || (c =? 8239) || (c =? 8287) ||
   (c =? 12288) || (c =? 65279))%N.

Fixpoint trimStart (s : jsstring) : jsstring :=
  match s with
  | [] => []
  | c :: s' => if isWhiteSpace c then trimStart s' else s
  end.

Definition trimEnd (s : jsstring) : jsstring :=
  rev (trimStart (rev s)).

(** [s.trim()] *)
Definition trim (s : jsstring) : jsstring :=
  trimEnd (trimStart s).

Fixpoint startsWith (p s : jsstring) : bool :=
  match p, s with
  | [], _ => true
  | a :: p', b :: s' => N.eqb a b && startsWith p' s'
  | _ :: _, [] => false
  end.

(** [s.includes(p)] *)
Fixpoint includes (p s : jsstring) : bool :=
  startsWith p s ||
  match s with
  | [] => false
  | _ :: s' => includes p s'
  end.

Definition isHighSurrogate (c : N) : bool :=
  ((55296 <=? c) && (c <=? 56319))%N.

Definition isLowSurrogate (c : N) : bool :=
  ((56320 <=? c) && (c <=? 57343))%N.

(** U+FFFD, the replacement character. *)
Definition REPLACEMENT : N := 65533%N.

(** [s.toWellFormed()]: every surrogate that is not half of a pair becomes
    U+FFFD. It is what a string is after it went to UTF-8 and back, which is
    what SQLite keeps of a string bound to a TEXT column. *)
Fixpoint toWellFormed (s : jsstring) : jsstring :=
  match s with
  | [] => []
  | c :: s' =>
      if isHighSurrogate c then
        match s' with
        | d :: s'' =>
            if isLowSurrogate d then c :: d :: toWellFormed s''
            else REPLACEMENT :: toWellFormed s'
        | [] => [REPLACEMENT]
        end
      else if isLowSurrogate c then REPLACEMENT :: toWellFormed s'
      else c :: toWellFormed s'
  end.

(** [s.isWellFormed()] *)
Definition isWellFormed (s : jsstring) : bool := eqb (toWellFormed s) s.

(** [a.slice(-n)] on an array or a string: the last [n] elements, all of
    them when there are fewer. *)
Definition slice_last {A : Type} (n : nat) (l : list A) : list A :=
  skipn (length l - n) l.

(** [a.slice(0, n)] *)
Definition slice_first {A : Type} (n : nat) (l : list A) : list A :=
  firstn n l.

End JsString.

Import JsString.

(* ===================================================================== *)
(** ** The SQLite store: [db/migrate.ts] and the prepared statements *)
(* ===================================================================== *)

Module Store.

(** A row of [conversations (id TEXT PRIMARY KEY, created_at INTEGER NOT NULL)]. *)
Record Conversation : Type := mkConversation {
  id : jsstring;
  conv_created_at : Z
}.

(** A row of [messages]: [id INTEGER PRIMARY KEY AUTOINCREMENT] and four
    [NOT NULL] columns, [conversation_id] referencing [conversations(id)]. *)
Record Message : Type := mkMessage {
  msg_id : Z;
  conversation_id : jsstring;
  sender : jsstring;
  text : jsstring;
  created_at : Z
}.

(** The database file: both tables in rowid order, and the counter that
    [AUTOINCREMENT] keeps in [sqlite_sequence] for [messages]. *)
Record Db : Type := mkDb {
  conversations : list Conversation;
  messages : list Message;
  sqlite_sequence : Z
}.

(** After [db/migrate.ts] on a new file. *)
Definition migrated : Db := mkDb [] [] 0.

Inductive SqliteError : Type :=
| SQLITE_CONSTRAINT_PRIMARYKEY
| SQLITE_CONSTRAINT_FOREIGNKEY.

(** What [stmt.run] returns. *)
Record RunResult : Type := mkRunResult {
  changes : Z;
  lastInsertRowid : Z
}.

(** A statement either returns or throws; a statement that throws leaves the
    database as it found it, and nothing rolls back the statements before it. *)
Inductive Outcome (A : Type) : Type :=
| Returns (a : A)
| Throws (e : SqliteError).
Arguments Returns {A} a.
Arguments Throws {A} e.

(** Code that runs statements against a state [S] and may throw. *)
Definition M (S A : Type) : Type := S -> Outcome A * S.

Definition ret {S A : Type} (a : A) : M S A := fun s => (Returns a, s).

Definition bind {S A B : Type} (m : M S A) (k : A -> M S B) : M S B :=
  fun s =>
    match m s with
    | (Returns a, s') => k a s'
    | (Throws e, s') => (Throws e, s')
    end.

(** [try { body } catch (err) { handler }] around statements. *)
Definition try_catch {S A : Type} (body : M S A) (handler : SqliteError -> A)
  : S -> A * S :=
  fun s =>
    match body s with
    | (Returns a, s') => (a, s')
    | (Throws e, s') => (handler e, s')
    end.

(** The row [SELECT id, created_at FROM conversations WHERE id = ?] gets. *)
Definition getConversation (sid : jsstring) (d : Db) : option Conversation :=
  find (fun c => eqb (id c) sid) (conversations d).

(** The [PRIMARY KEY] of [conversations]: no second row with this id. *)
Definition primary_key_free (d : Db) (sid : jsstring) : bool :=
  match getConversation sid d with Some _ => false | None => true end.

(** The [FOREIGN KEY (conversation_id) REFERENCES conversations(id)] of
    [messages]; better-sqlite3 opens every database with foreign keys
    enforced. *)
Definition foreign_key_ok (d : Db) (cid : jsstring) : bool :=
  match getConversation cid d with Some _ => true | None => false end.

(** The tables with one more row at the end. *)
Definition withConversation (d : Db) (c : Conversation) : Db :=
  mkDb (conversations d ++ [c]) (messages d) (sqlite_sequence d).

Definition withMessage (d : Db) (m : Message) : Db :=
  mkDb (conversations d) (messages d ++ [m]) (msg_id m).

(** [INSERT INTO conversations (id, created_at) VALUES (?, ?)] *)
Definition insertConversation (sid : jsstring) (now : Z) : M Db RunResult :=
  fun d =>
    if primary_key_free d sid then
      (Returns (mkRunResult 1 (Z.of_nat (length (conversations d)) + 1)),
       withConversation d (mkConversation sid now))
    else (Throws SQLITE_CONSTRAINT_PRIMARYKEY, d).

(** [INSERT INTO messages (conversation_id, sender, text, created_at)
     VALUES (?, ?, ?, ?)]: the new row takes the next [AUTOINCREMENT] id.
    The strings bound to [sender] and [text] are kept as UTF-8, so they are
    read back well formed; the identifier is one the foreign key has just
    matched against [conversations], whose ids come from [randomUUID()]. *)
Definition insertMessage (cid sndr txt : jsstring) (now : Z) : M Db RunResult :=
  fun d =>
    if foreign_key_ok d cid then
      let rowid := (sqlite_sequence d + 1)%Z in
      (Returns (mkRunResult 1 rowid),
       withMessage d
         (mkMessage rowid cid (toWellFormed sndr) (toWellFormed txt) now))
    else (Throws SQLITE_CONSTRAINT_FOREIGNKEY, d).

(** [ORDER BY created_at ASC]: rows with equal timestamps stay in rowid
    order, the tie-break the store's contract names. *)
Fixpoint insertByCreatedAt (m : Message) (l : list Message) : list Message :=
  match l with
  | [] => [m]
  | m' :: l' =>
      if (created_at m <=? created_at m')%Z then m :: l
      else m' :: insertByCreatedAt m l'
  end.

Fixpoint orderByCreatedAt (l : list Message) : list Message :=
  match l with
  | [] => []
  | m :: l' => insertByCreatedAt m (orderByCreatedAt l')
  end.

(** [... FROM messages WHERE conversation_id = ? ORDER BY created_at ASC] *)
Definition messagesOf (sid : jsstring) (d : Db) : list Message :=
  orderByCreatedAt
    (filter (fun m => eqb (conversation_id m) sid) (messages d)).

(** [LIMIT n] *)
Definition limit {A : Type} (n : nat) (rows : list A) : list A := firstn n rows.
Arguments limit {A} n rows : simpl never.

(** [SELECT sender, text FROM messages WHERE conversation_id = ?
     ORDER BY created_at ASC LIMIT 20] *)
Definition selectHistory (sid : jsstring) : M Db (list (jsstring * jsstring)) :=
  fun d =>
    (Returns (map (fun m => (sender m, text m)) (limit 20 (messagesOf sid d))), d).

(** [SELECT sender, text, created_at FROM messages WHERE conversation_id = ?
     ORDER BY created_at ASC] *)
Definition selectMessages (sid : jsstring) (d : Db)
  : list (jsstring * jsstring * Z) :=
  map (fun m => (sender m, text m, created_at m)) (messagesOf sid d).

End Store.

Import Store.

Notation "x <- m ;; k" := (bind m (fun x => k))
  (at level 61, m at next level, right associativity).

(* ===================================================================== *)
(** ** The reply generator: [llm.ts] *)
(* ===================================================================== *)

Module Llm.

Inductive Role : Type := user | assistant.

(** [interface ChatMessage { role: "user" | "assistant"; content: string }] *)
Record ChatMessage : Type := mkChatMessage {
  role : Role;
  content : jsstring
}.

Inductive ApiRole : Type := api_system | api_user | api_assistant.

Record ApiMessage : Type := mkApiMessage {
  api_role : ApiRole;
  api_content : jsstring
}.

(** The argument of [openai.chat.completions.create]. *)
Record CreateParams : Type := mkCreateParams {
  model : jsstring;
  api_messages : list ApiMessage;
  max_tokens : Z;
  temperature : Q
}.

(** What the provider sends back, as far as [generateReply] looks into it:
    [choices] may be missing altogether, and [choices[0]], its [message] and
    the [content] of that may each be null or undefined. *)
Record ChoiceMessage : Type := mkChoiceMessage {
  choice_content : option jsstring
}.

Record Choice : Type := mkChoice {
  choice_message : option ChoiceMessage
}.

Record ChatCompletion : Type := mkChatCompletion {
  choices : option (list (option Choice))
}.

(** The promise [create] returns is rejected (network fault, provider error,
    timeout) or fulfilled with a response. *)
Inductive CreateOutcome : Type :=
| Rejected
| Fulfilled (response : ChatCompletion).

(** The provider: a black box from the request to what comes back. *)
Definition Client : Type := CreateParams -> CreateOutcome.

(** The module state of [llm.ts]: the client handle, null without a key at
    start-up, and [process.env.OPENAI_API_KEY]. *)
Record LlmEnv : Type := mkLlmEnv {
  openai : option Client;
  OPENAI_API_KEY : option jsstring
}.

Definition nl : jsstring := [10%N].

Definition SYSTEM_PROMPT : jsstring :=
  nl ++
  lit "You are a helpful support agent for a small e-commerce store called Spur Store." ++ nl ++
  lit "Answer clearly and concisely in 2-4 sentences." ++ nl ++
  nl ++
  lit "Store FAQs:" ++ nl ++
  lit "- Shipping: We ship worldwide. Standard shipping takes 5-7 business days within the country and 7-14 business days for international orders." ++ nl ++
  lit "- Returns: We accept returns within 30 days of delivery for unused items in original packaging. Refunds are processed within 5-7 business days after we receive the returned item." ++ nl ++
  lit "- Refunds: Refunds are issued to the original payment method only." ++ nl ++
  lit "- Support Hours: Our live support is available Monday to Friday, 9am" ++ [8211%N] ++
  lit "6pm IST. You can email us any time at support@spurstore.test." ++ nl ++
  nl ++
  lit "If you are unsure or the user asks something unrelated to shopping, politely say you are a simple support bot and suggest contacting human support." ++ nl.

(** The three fixed strings of [generateReply]. *)
Definition REPLY_NO_API_KEY : jsstring :=
  lit "Our AI agent is currently unavailable because the API key is not configured. Please contact human support at support@spurstore.test.".

Definition REPLY_NO_CONTENT : jsstring :=
  lit "Sorry, I couldn't generate a response just now. Please try again.".

Definition REPLY_LLM_ERROR : jsstring :=
  lit "Sorry, our AI agent ran into a problem. Please try again in a moment or contact human support at support@spurstore.test.".

(** The human-support channel the fixed strings point to. *)
Definition SUPPORT_CONTACT : jsstring := lit "support@spurstore.test".

Definition namesSupport (s : jsstring) : bool := includes SUPPORT_CONTACT s.

(** [!process.env.OPENAI_API_KEY]: unset or empty. *)
Definition key_missing (k : option jsstring) : bool :=
  match k with None => true | Some s => falsy s end.

(** [userMessage.length > 1000 ? userMessage.slice(0, 1000) : userMessage] *)
Definition truncatedUserMessage (userMessage : jsstring) : jsstring :=
  if (1000 <? length userMessage)%nat then slice_first 1000 userMessage
  else userMessage.

Definition apiMessage (m : ChatMessage) : ApiMessage :=
  mkApiMessage
    (match role m with user => api_user | assistant => api_assistant end)
    (content m).

(** [history.slice(-10)]: the part of the history that reaches the provider. *)
Definition contextWindow (history : list ChatMessage) : list ChatMessage :=
  slice_last 10 history.

(** The [messages] array: the system prompt, [...history.slice(-10)], and the
    latest user text. *)
Definition requestMessages (history : list ChatMessage) (userMessage : jsstring)
  : list ApiMessage :=
  mkApiMessage api_system SYSTEM_PROMPT
  :: map apiMessage (contextWindow history)
  ++ [mkApiMessage api_user (truncatedUserMessage userMessage)].

Definition createParams (history : list ChatMessage) (userMessage : jsstring)
  : CreateParams :=
  mkCreateParams (lit "gpt-4o-mini") (requestMessages history userMessage)
                 200 (4 # 10).

(** [response.choices[0]?.message?.content]; [None] at the outside is the
    TypeError of indexing a missing [choices], [Some None] is undefined or
    null. *)
Definition firstContent (response : ChatCompletion) : option (option jsstring) :=
  match choices response with
  | None => None
  | Some cs =>
      Some match nth_error cs 0 with
           | Some (Some c) =>
               match choice_message c with
               | Some m => choice_content m
               | None => None
               end
           | _ => None
           end
  end.

(** The body of the [try]: [None] when it throws. *)
Definition tryCreate (c : Client) (history : list ChatMessage)
  (userMessage : jsstring) : option jsstring :=
  match c (createParams history userMessage) with
  | Rejected => None
  | Fulfilled response =>
      match firstContent response with
      | None => None
      | Some (Some reply) => Some reply
      | Some None => Some REPLY_NO_CONTENT
      end
  end.

Definition generateReply (env : LlmEnv) (history : list ChatMessage)
  (userMessage : jsstring) : jsstring :=
  match openai env with
  | None => REPLY_NO_API_KEY
  | Some c =>
      if key_missing (OPENAI_API_KEY env) then REPLY_NO_API_KEY
      else
        match tryCreate c history userMessage with
        | Some reply => reply
        | None => REPLY_LLM_ERROR
        end
  end.

End Llm.

Import Llm.

(* ===================================================================== *)
(** ** The routes: [index.ts] *)
(* ===================================================================== *)

Module Routes.

(** [interface ChatRequestBody { message: string; sessionId?: string }], with
    the fields a JSON body may leave out. *)
Record ChatRequestBody : Type := mkChatRequestBody {
  message : option jsstring;
  sessionId : option jsstring
}.

Inductive ResponseBody : Type :=
| ErrorJson (error : jsstring)
| ReplyJson (reply : jsstring) (session : jsstring)
| HistoryJson (session : jsstring) (createdAt : Z)
              (rows : list (jsstring * jsstring * Z)).

Record Response : Type := mkResponse {
  status : Z;
  json : ResponseBody
}.

(** What one run of the handler takes from outside: the two readings of
    [Date.now()] and the value of [randomUUID()]. *)
Record Runtime : Type := mkRuntime {
  now : Z;
  uuid : jsstring;
  now_reply : Z
}.

(** The calls a handler makes, in the order it makes them. *)
Inductive Call : Type :=
| RunInsertConversation (sid : jsstring) (at_ : Z)
| RunInsertMessage (cid sndr txt : jsstring) (at_ : Z)
| AllHistory (sid : jsstring)
| AwaitGenerateReply (history : list ChatMessage) (userMessage : jsstring).

(** The server: the database and the calls made so far. *)
Record World : Type := mkWorld {
  db : Db;
  calls : list Call
}.

(** Run a statement of the store and record the call. *)
Definition run {A : Type} (c : Call) (stmt : M Db A) : M World A :=
  fun w =>
    let (r, d') := stmt (db w) in
    (r, mkWorld d' (calls w ++ [c])).

(** [await generateReply(history, message)]: touches no table. *)
Definition awaitGenerateReply (env : LlmEnv) (history : list ChatMessage)
  (userMessage : jsstring) : M World jsstring :=
  fun w =>
    (Returns (generateReply env history userMessage),
     mkWorld (db w) (calls w ++ [AwaitGenerateReply history userMessage])).

Definition MSG_EMPTY : jsstring := lit "Message cannot be empty.".

Definition MSG_TOO_LONG : jsstring :=
  lit "Message is too long. Please keep it under 4000 characters so our agent can handle it.".

Definition MSG_CHAT_FAULT : jsstring :=
  lit "Something went wrong on our side while processing your message. Please try again in a moment.".

Definition MSG_NOT_FOUND : jsstring := lit "Conversation not found.".

(** [row.sender === "user" ? "user" : "assistant"] *)
Definition roleOfSender (s : jsstring) : Role :=
  if eqb s (lit "user") then user else assistant.

Definition chatMessageOfRow (row : jsstring * jsstring) : ChatMessage :=
  mkChatMessage (roleOfSender (fst row)) (snd row).

(** [body.sessionId] when it is truthy: present and not the empty string. *)
Definition suppliedSession (body : ChatRequestBody) : option jsstring :=
  match sessionId body with
  | Some sid => if falsy sid then None else Some sid
  | None => None
  end.

(** [let sessionId = body.sessionId; if (!sessionId) { ... }] *)
Definition resolveSession (rt : Runtime) (body : ChatRequestBody)
  : M World jsstring :=
  match suppliedSession body with
  | Some sid => ret sid
  | None =>
      _ <- run (RunInsertConversation (uuid rt) (now rt))
               (insertConversation (uuid rt) (now rt)) ;;
      ret (uuid rt)
  end.

(** The handler of [POST /chat/message] after validation. *)
Definition chatTurn (env : LlmEnv) (rt : Runtime) (body : ChatRequestBody)
  (msg : jsstring) : M World Response :=
  sid <- resolveSession rt body ;;
  _ <- run (RunInsertMessage sid (lit "user") msg (now rt))
           (insertMessage sid (lit "user") msg (now rt)) ;;
  rows <- run (AllHistory sid) (selectHistory sid) ;;
  let history := map chatMessageOfRow rows in
  replyText <- awaitGenerateReply env history msg ;;
  _ <- run (RunInsertMessage sid (lit "ai") replyText (now_reply rt))
           (insertMessage sid (lit "ai") replyText (now_reply rt)) ;;
  ret (mkResponse 200 (ReplyJson replyText sid)).

(** [app.post("/chat/message", ...)] *)
Definition postChatMessage (env : LlmEnv) (rt : Runtime) (body : ChatRequestBody)
  : World -> Response * World :=
  let rawMessage := match message body with Some m => m | None => [] end in
  let msg := trim rawMessage in
  if falsy msg then
    fun w => (mkResponse 400 (ErrorJson MSG_EMPTY), w)
  else if (4000 <? length msg)%nat then
    fun w => (mkResponse 400 (ErrorJson MSG_TOO_LONG), w)
  else
    try_catch (chatTurn env rt body msg)
              (fun _ => mkResponse 500 (ErrorJson MSG_CHAT_FAULT)).

(** [app.get("/chat/history/:sessionId", ...)]; neither statement changes a
    table or can violate a constraint. *)
Definition getChatHistory (sid : jsstring) : World -> Response * World :=
  fun w =>
    match getConversation sid (db w) with
    | None => (mkResponse 404 (ErrorJson MSG_NOT_FOUND), w)
    | Some conv =>
        (mkResponse 200
           (HistoryJson sid (conv_created_at conv) (selectMessages sid (db w))),
         w)
    end.

(** The history array [generateReply] receives in a turn on session [sid],
    read after the user row went in. *)
Definition historyHanded (sid : jsstring) (d : Db) : list ChatMessage :=
  map chatMessageOfRow
      (map (fun m => (sender m, text m)) (limit 20 (messagesOf sid d))).

End Routes.

Import Routes.

(* ===================================================================== *)
(** ** The vocabulary of the properties *)
(* ===================================================================== *)

Module Props.

(** A message the validation lets through: not empty once trimmed, and at
    most 4000 code units long. *)
Definition admissible (t : jsstring) : Prop :=
  trim t <> [] /\ (length (trim t) <= 4000)%nat.

(** The session a turn writes to: the supplied one, or the fresh one. *)
Definition resolvedSession (rt : Runtime) (body : ChatRequestBody) : jsstring :=
  match suppliedSession body with
  | Some sid => sid
  | None => uuid rt
  end.

(** The store accepts the session of the request: a supplied identifier
    names a conversation, a fresh one is not yet taken. *)
Definition sessionResolves (rt : Runtime) (body : ChatRequestBody) (d : Db)
  : bool :=
  match suppliedSession body with
  | Some sid => foreign_key_ok d sid
  | None => primary_key_free d (uuid rt)
  end.

(** The database once the session of the request is resolved. *)
Definition afterResolve (rt : Runtime) (body : ChatRequestBody) (d : Db) : Db :=
  match suppliedSession body with
  | Some _ => d
  | None => withConversation d (mkConversation (uuid rt) (now rt))
  end.

(** The two rows of a turn. *)
Definition userRow (rt : Runtime) (body : ChatRequestBody) (msg : jsstring)
  (d : Db) : Message :=
  mkMessage (sqlite_sequence d + 1) (resolvedSession rt body)
            (lit "user") (toWellFormed msg) (now rt).

Definition aiRow (rt : Runtime) (body : ChatRequestBody) (reply : jsstring)
  (d : Db) : Message :=
  mkMessage (sqlite_sequence d + 2) (resolvedSession rt body)
            (lit "ai") (toWellFormed reply) (now_reply rt).

(** The database when [generateReply] is awaited: the user row is in. *)
Definition afterUserTurn (rt : Runtime) (body : ChatRequestBody)
  (msg : jsstring) (d : Db) : Db :=
  withMessage (afterResolve rt body d) (userRow rt body msg d).

(** The calls of a turn that goes through. *)
Definition turnCalls (rt : Runtime) (body : ChatRequestBody) (msg : jsstring)
  (history : list ChatMessage) (reply : jsstring) : list Call :=
  match suppliedSession body with
  | Some _ => []
  | None => [RunInsertConversation (uuid rt) (now rt)]
  end ++
  [RunInsertMessage (resolvedSession rt body) (lit "user") msg (now rt);
   AllHistory (resolvedSession rt body);
   AwaitGenerateReply history msg;
   RunInsertMessage (resolvedSession rt body) (lit "ai") reply (now_reply rt)].

(** The one call of a turn the store refuses. *)
Definition refusedCall (rt : Runtime) (body : ChatRequestBody) (msg : jsstring)
  : Call :=
  match suppliedSession body with
  | Some sid => RunInsertMessage sid (lit "user") msg (now rt)
  | None => RunInsertConversation (uuid rt) (now rt)
  end.

(** No reply text comes from the provider: the credential is missing, the
    call is rejected, or the response carries no content. *)
Definition generationFails (env : LlmEnv) (history : list ChatMessage)
  (userMessage : jsstring) : bool :=
  match openai env with
  | None => true
  | Some c =>
      key_missing (OPENAI_API_KEY env) ||
      match c (createParams history userMessage) with
      | Rejected => true
      | Fulfilled response =>
          match firstContent response with
          | Some (Some _) => false
          | _ => true
          end
      end
  end.

Definition fallbackReplies : list jsstring :=
  [REPLY_NO_API_KEY; REPLY_NO_CONTENT; REPLY_LLM_ERROR].

(** Ascending by time. *)
Definition created_le (m m' : Message) : Prop :=
  (created_at m <= created_at m')%Z.

Definition row_le (r r' : jsstring * jsstring * Z) : Prop :=
  (snd r <= snd r')%Z.

(** The [n] most recent messages of a conversation, oldest first. *)
Definition mostRecent (n : nat) (sid : jsstring) (d : Db) : list ChatMessage :=
  map chatMessageOfRow
      (map (fun m => (sender m, text m)) (slice_last n (messagesOf sid d))).

End Props.

Import Props.

(* ===================================================================== *)
(** ** Concrete runs *)
(* ===================================================================== *)

Module Scenario.

Definition respond (c : option jsstring) : Client :=
  fun _ => Fulfilled
    (mkChatCompletion (Some [Some (mkChoice (Some (mkChoiceMessage c)))])).

(** A configured provider that answers every request with [ok]. *)
Definition env_ok : LlmEnv :=
  mkLlmEnv (Some (respond (Some (lit "ok")))) (Some (lit "sk-test")).

(** No credential. *)
Definition env_no_key : LlmEnv := mkLlmEnv None None.

(** A provider whose first choice has [content: null]. *)
Definition env_null_content : LlmEnv :=
  mkLlmEnv (Some (respond None)) (Some (lit "sk-test")).

(** A provider whose first choice has the empty string as content. *)
Definition env_empty_content : LlmEnv :=
  mkLlmEnv (Some (respond (Some []))) (Some (lit "sk-test")).

Definition sid1 : jsstring := lit "0b9f6c1e-5d2a-4c67-9a3e-7f1d2c4b8a90".

Definition fresh : World := mkWorld migrated [].

(** The [k]-th request of a session: the [k]-th capital letter, at time
    [2k-1], answered at time [2k]. *)
Definition letter (k : nat) : jsstring := [N.of_nat (64 + k)].

Definition rt_k (k : nat) : Runtime :=
  mkRuntime (2 * Z.of_nat k - 1) sid1 (2 * Z.of_nat k).

Definition body_k (k : nat) : ChatRequestBody :=
  mkChatRequestBody (Some (letter k))
                    (match k with 1%nat => None | _ => Some sid1 end).

(** [n] exchanges in one conversation, starting from an empty database. *)
Fixpoint exchanges (env : LlmEnv) (n : nat) : World :=
  match n with
  | O => fresh
  | S n' => snd (postChatMessage env (rt_k n) (body_k n) (exchanges env n'))
  end.

(** The history argument of the last [generateReply] call. *)
Fixpoint lastHistory (cs : list Call) : option (list ChatMessage) :=
  match cs with
  | [] => None
  | c :: cs' =>
      match lastHistory cs' with
      | Some h => Some h
      | None =>
          match c with
          | AwaitGenerateReply h _ => Some h
          | _ => None
          end
      end
  end.

Definition turn (k : nat) : ChatMessage := mkChatMessage user (letter k).

Definition ok : ChatMessage := mkChatMessage assistant (lit "ok").

(** A message of one letter followed by 4000 spaces. *)
Definition padded : jsstring := lit "a" ++ repeat 32%N 4000.

End Scenario.

(* ===================================================================== *)
(** ** The server over many requests, and what its tables keep *)
(* ===================================================================== *)

(** The string is empty or starts with a unit that is no white space. *)
Definition noLeading (s : jsstring) : Prop :=
  match s with
  | [] => True
  | c :: _ => isWhiteSpace c = false
  end.

Module Server.

(** A request to one of the two chat routes, with what its run takes from
    outside. *)
Inductive Request : Type :=
| PostChatMessage (env : LlmEnv) (rt : Runtime) (body : ChatRequestBody)
| GetChatHistory (sid : jsstring).

Definition serve (r : Request) (w : World) : Response * World :=
  match r with
  | PostChatMessage env rt body => postChatMessage env rt body w
  | GetChatHistory sid => getChatHistory sid w
  end.

(** The requests are handled one after the other, each to its end. *)
Fixpoint serveAll (rs : list Request) (w : World) : World :=
  match rs with
  | [] => w
  | r :: rs' => serveAll rs' (snd (serve r w))
  end.

(** What the schema of [migrate.ts] promises of the tables: the primary key
    of [conversations] has no duplicate, every message references a
    conversation, and the ids of [messages] grow with the rows and stay
    within the [AUTOINCREMENT] counter. *)
Record wellFormed (d : Db) : Prop := mkWellFormed {
  wf_primary_key : NoDup (map id (conversations d));
  wf_foreign_key :
    Forall (fun m => In (conversation_id m) (map id (conversations d)))
           (messages d);
  wf_rowids : StronglySorted Z.lt (map msg_id (messages d));
  wf_sequence :
    Forall (fun m => (msg_id m <= sqlite_sequence d)%Z) (messages d)
}.

(** The rows of a conversation in the order they were inserted. *)
Definition rowsOf (sid : jsstring) (d : Db) : list Message :=
  filter (fun m => eqb (conversation_id m) sid) (messages d).

(** A stored row is a user row with a trimmed admissible text, or an
    assistant row. *)
Definition rowChecked (m : Message) : Prop :=
  (sender m = lit "user" /\ admissible (text m) /\ trim (text m) = text m)
  \/ sender m = lit "ai".

End Server.

Import Server.

(* ===================================================================== *)
(** ** The chat widget: [frontend/src/App.tsx] *)
(* ===================================================================== *)

Module Widget.

(** [interface ChatSession { id: string; preview: string; timestamp: number }] *)
Record ChatSession : Type := mkChatSession {
  id : jsstring;
  preview : jsstring;
  timestamp : Z
}.

(** [interface Message { sender: Sender; text: string; created_at?: number }] *)
Record Message : Type := mkUiMessage {
  sender : jsstring;
  text : jsstring;
  created_at : option Z
}.

(** The state of the component, and the two keys it keeps in
    [localStorage]: [spur-chat-session-id] and [spur-chat-history]. *)
Record State : Type := mkState {
  sessionId : option jsstring;
  messages : list Message;
  input : jsstring;
  isSending : bool;
  error : option jsstring;
  chatSessions : list ChatSession;
  showHistory : bool;
  storedSessionId : option jsstring;
  storedChatHistory : option (list ChatSession)
}.

(** The state of the first render, with nothing in [localStorage]. *)
Definition initial : State :=
  mkState None [] [] false None [] false None None.

(** [onChange={(e) => setInput(e.target.value)}] *)
Definition setInput (value : jsstring) (st : State) : State :=
  mkState (sessionId st) (messages st) value (isSending st) (error st)
          (chatSessions st) (showHistory st)
          (storedSessionId st) (storedChatHistory st).

Definition slash : N := 47%N.

Fixpoint dropSlashes (s : jsstring) : jsstring :=
  match s with
  | [] => []
  | c :: s' => if N.eqb c slash then dropSlashes s' else s
  end.

(** [s.replace(/\/+$/, "")]: the slashes at the end of the string go. *)
Definition stripTrailingSlashes (s : jsstring) : jsstring :=
  rev (dropSlashes (rev s)).

(** [s.endsWith("/")] *)
Definition endsWithSlash (s : jsstring) : bool :=
  match rev s with
  | c :: _ => N.eqb c slash
  | [] => false
  end.

(** [API_BASE_URL], from [import.meta.env.VITE_API_BASE_URL]. *)
Definition API_BASE_URL (env : option jsstring) : option jsstring :=
  match env with
  | Some s => Some (stripTrailingSlashes (trim s))
  | None => None
  end.

Definition apiUrl (env : option jsstring) (path : jsstring) : jsstring :=
  match API_BASE_URL env with
  | Some base => if falsy base then path else base ++ path
  | None => path
  end.

(** [handleSend], up to the [fetch]: nothing happens on an input that is
    empty once trimmed or while a message is in flight; otherwise the state
    with the optimistic user message, and the JSON body that is posted
    ([sessionId] is left out of it when the state has none). *)
Definition handleSend (st : State) : option (State * ChatRequestBody) :=
  let trimmed := trim (input st) in
  if falsy trimmed || isSending st then None
  else
    Some (mkState (sessionId st)
                  (messages st ++ [mkUiMessage (lit "user") trimmed None])
                  [] true None
                  (chatSessions st) (showHistory st)
                  (storedSessionId st) (storedChatHistory st),
          mkChatRequestBody (Some trimmed) (sessionId st)).

(** [!sessionId] and [sessionId || other] on [string | null]. *)
Definition noSession (s : option jsstring) : bool :=
  match s with Some sid => falsy sid | None => true end.

(** [handleSend] after a response with [res.ok] and the data
    [{reply, sessionId}]; [sent] is the [sessionId] the call was made with. *)
Definition handleSendReplied (sent : option jsstring) (reply sid : jsstring)
  (st : State) : State :=
  let adopt := noSession sent && negb (falsy sid) in
  mkState (if adopt then Some sid else sessionId st)
          (messages st ++ [mkUiMessage (lit "ai") reply None])
          (input st) false (error st)
          (chatSessions st) (showHistory st)
          (if adopt then Some sid else storedSessionId st)
          (storedChatHistory st).

(** [startNewChat]: a chat with messages is put at the head of the list of
    past chats, in place of an entry with the same id, and the list is cut to
    five; then the widget is reset. *)
Definition startNewChat (uuid : jsstring) (now : Z) (st : State) : State :=
  let sessions :=
    match messages st with
    | [] => None
    | first :: _ =>
        let newSession :=
          mkChatSession
            (match sessionId st with
             | Some sid => if falsy sid then uuid else sid
             | None => uuid
             end)
            (if falsy (text first) then lit "New Chat" else text first)
            now in
        Some (slice_first 5
                (newSession ::
                 filter (fun s => negb (eqb (id s) (id newSession)))
                        (chatSessions st)))
    end in
  mkState None [] (input st) (isSending st) None
          (match sessions with Some l => l | None => chatSessions st end)
          false
          None
          (match sessions with
           | Some l => Some l
           | None => storedChatHistory st
           end).

(** [handleChatHistoryClick], up to the [fetch] of the history: the chosen
    chat moves to the head of the list with a new timestamp and becomes the
    current session. *)
Definition handleChatHistoryClick (now : Z) (session : ChatSession)
  (st : State) : State :=
  let updatedSession := mkChatSession (id session) (preview session) now in
  let otherSessions :=
    filter (fun s => negb (eqb (id s) (id session))) (chatSessions st) in
  let updatedSessions := updatedSession :: otherSessions in
  mkState (Some (id session)) [] (input st) (isSending st) (error st)
          updatedSessions false
          (Some (id session))
          (Some updatedSessions).

End Widget.

(** Concrete states of the widget. *)
Module WidgetScenario.

Definition chat (name : string) (at_ : Z) : Widget.ChatSession :=
  Widget.mkChatSession (lit name) (lit name) at_.

(** Five past chats. *)
Definition pastChats : list Widget.ChatSession :=
  [chat "a" 1; chat "b" 2; chat "c" 3; chat "d" 4; chat "e" 5].

(** A chat in progress on session [sid], with one exchange shown. *)
Definition chatting (sid : jsstring) : Widget.State :=
  Widget.mkState (Some sid)
    [Widget.mkUiMessage (lit "user") (lit "hello") None;
     Widget.mkUiMessage (lit "ai") (lit "ok") None]
    [] false None pastChats false (Some sid) (Some pastChats).

End WidgetScenario.

(* ===================================================================== *)
(** ** Strings *)
(* ===================================================================== *)

Section StringFacts.

Lemma eqb_refl (s : jsstring) : eqb s s = true.
Proof.
  induction s as [|a s IH]; simpl; [reflexivity|].
  now rewrite N.eqb_refl, IH.
Qed.

Lemma eqb_eq (s t : jsstring) : eqb s t = true <-> s = t.
Proof.
  split; [|intros ->; apply eqb_refl].
  revert t; induction s as [|a s IH]; intros [|b t]; simpl; try discriminate.
  - reflexivity.
  - intros H. apply andb_true_iff in H as [Hab Hst].
    apply N.eqb_eq in Hab. now rewrite Hab, (IH _ Hst).
Qed.

Lemma falsy_nil (s : jsstring) : falsy s = true <-> s = [].
Proof. destruct s; simpl; split; congruence. Qed.

Lemma trimStart_length (s : jsstring) : (length (trimStart s) <= length s)%nat.
Proof.
  induction s as [|c s IH]; simpl; [lia|].
  destruct (isWhiteSpace c); simpl; lia.
Qed.

Lemma trim_length (s : jsstring) : (length (trim s) <= length s)%nat.
Proof.
  unfold trim, trimEnd. rewrite length_rev.
  etransitivity; [apply trimStart_length|].
  rewrite length_rev. apply trimStart_length.
Qed.

(** A well-formed string is stored as it is. *)
Lemma toWellFormed_fixed (s : jsstring) :
  isWellFormed s = true -> toWellFormed s = s.
Proof. unfold isWellFormed. apply eqb_eq. Qed.

End StringFacts.

(* ===================================================================== *)
(** ** The store *)
(* ===================================================================== *)

Section StoreFacts.

Lemma insertByCreatedAt_perm (m : Message) (l : list Message) :
  Permutation (m :: l) (insertByCreatedAt m l).
Proof.
  induction l as [|m' l IH]; simpl; [reflexivity|].
  destruct (created_at m <=? created_at m')%Z; [reflexivity|].
  rewrite perm_swap. now constructor.
Qed.

Lemma orderByCreatedAt_perm (l : list Message) :
  Permutation l (orderByCreatedAt l).
Proof.
  induction l as [|m l IH]; simpl; [constructor|].
  rewrite <- insertByCreatedAt_perm. now constructor.
Qed.

Lemma insertByCreatedAt_hd (m x : Message) (l : list Message) :
  created_le x m -> HdRel created_le x l ->
  HdRel created_le x (insertByCreatedAt m l).
Proof.
  intros Hxm Hx. destruct l as [|m' l]; simpl; [now constructor|].
  destruct (created_at m <=? created_at m')%Z; constructor; trivial.
  now inversion Hx.
Qed.

Lemma insertByCreatedAt_sorted (m : Message) (l : list Message) :
  Sorted created_le l -> Sorted created_le (insertByCreatedAt m l).
Proof.
  induction 1 as [|m' l Hs IH Hhd]; simpl; [repeat constructor|].
  destruct (created_at m <=? created_at m')%Z eqn:Hle.
  - constructor; [now constructor|]. constructor.
    unfold created_le. now apply Z.leb_le.
  - constructor; [exact IH|].
    apply insertByCreatedAt_hd; [|exact Hhd].
    unfold created_le. apply Z.leb_gt in Hle. lia.
Qed.

Lemma orderByCreatedAt_sorted (l : list Message) :
  Sorted created_le (orderByCreatedAt l).
Proof.
  induction l as [|m l IH]; simpl; [constructor|].
  now apply insertByCreatedAt_sorted.
Qed.

(** Rows already in time order come back in rowid order. *)
Lemma orderByCreatedAt_id (l : list Message) :
  Sorted created_le l -> orderByCreatedAt l = l.
Proof.
  induction 1 as [|m l Hs IH Hhd]; simpl; [reflexivity|].
  rewrite IH. destruct Hhd as [|m' l Hmm']; simpl; [reflexivity|].
  unfold created_le in Hmm'. apply Z.leb_le in Hmm'. now rewrite Hmm'.
Qed.

Lemma messagesOf_perm (sid : jsstring) (d : Db) :
  Permutation (filter (fun m => eqb (conversation_id m) sid) (messages d))
              (messagesOf sid d).
Proof. apply orderByCreatedAt_perm. Qed.

Lemma messagesOf_sorted (sid : jsstring) (d : Db) :
  Sorted created_le (messagesOf sid d).
Proof. apply orderByCreatedAt_sorted. Qed.

Lemma messagesOf_in (sid : jsstring) (d : Db) (m : Message) :
  In m (messagesOf sid d) <->
  In m (messages d) /\ conversation_id m = sid.
Proof.
  rewrite <- (eqb_eq (conversation_id m) sid).
  rewrite <- (filter_In (fun m => eqb (conversation_id m) sid)).
  split; apply Permutation_in;
    [symmetry|]; apply messagesOf_perm.
Qed.

Lemma selectMessages_sorted (sid : jsstring) (d : Db) :
  Sorted row_le (selectMessages sid d).
Proof.
  unfold selectMessages.
  generalize (messagesOf_sorted sid d).
  induction 1 as [|m l Hs IH Hhd]; simpl; constructor; trivial.
  destruct Hhd; simpl; constructor. assumption.
Qed.

(** The conversation lookup finds a row exactly when one has the id. *)
Lemma getConversation_some (sid : jsstring) (d : Db) (c : Conversation) :
  getConversation sid d = Some c -> In c (conversations d) /\ id c = sid.
Proof.
  unfold getConversation. intros H. apply find_some in H as [Hin Heq].
  split; [exact Hin | now apply eqb_eq].
Qed.

Lemma getConversation_none (sid : jsstring) (d : Db) :
  getConversation sid d = None <-> ~ In sid (map id (conversations d)).
Proof.
  unfold getConversation. split.
  - intros H Hin. apply in_map_iff in Hin as (c & Hc & Hin).
    generalize (find_none _ _ H c Hin). rewrite Hc, eqb_refl. discriminate.
  - intros H. destruct (find _ _) as [c|] eqn:Hf; [|reflexivity].
    apply find_some in Hf as [Hin Heq]. apply eqb_eq in Heq.
    exfalso. apply H. rewrite <- Heq. now apply in_map.
Qed.

Lemma getConversation_withMessage (sid : jsstring) (d : Db) (m : Message) :
  getConversation sid (withMessage d m) = getConversation sid d.
Proof. reflexivity. Qed.

Lemma getConversation_withConversation_new (d : Db) (c : Conversation) :
  getConversation (id c) d = None ->
  getConversation (id c) (withConversation d c) = Some c.
Proof.
  unfold getConversation, withConversation; simpl.
  induction (conversations d) as [|c' l IH]; simpl.
  - now rewrite eqb_refl.
  - destruct (eqb (id c') (id c)); [discriminate | exact IH].
Qed.

Lemma foreign_key_ok_iff (d : Db) (cid : jsstring) :
  foreign_key_ok d cid = true <-> In cid (map id (conversations d)).
Proof.
  unfold foreign_key_ok. split.
  - destruct (getConversation cid d) as [c|] eqn:H; [|discriminate].
    intros _. apply getConversation_some in H as [Hin <-]. now apply in_map.
  - intros Hin. destruct (getConversation cid d) eqn:H; [reflexivity|].
    now apply getConversation_none in H.
Qed.

End StoreFacts.

(* ===================================================================== *)
(** ** One turn of [POST /chat/message] *)
(* ===================================================================== *)

Section TurnFacts.

Variables (env : LlmEnv) (rt : Runtime) (body : ChatRequestBody).

Ltac step := unfold bind, run, ret, awaitGenerateReply; simpl.

(** A turn whose session the store accepts runs to its end. *)
Lemma chatTurn_resolved (msg : jsstring) (w : World) :
  sessionResolves rt body (db w) = true ->
  let d := afterUserTurn rt body msg (db w) in
  let history := historyHanded (resolvedSession rt body) d in
  let reply := generateReply env history msg in
  chatTurn env rt body msg w =
  (Returns (mkResponse 200 (ReplyJson reply (resolvedSession rt body))),
   mkWorld (withMessage d (aiRow rt body reply (db w)))
           (calls w ++ turnCalls rt body msg history reply)).
Proof.
  unfold sessionResolves, afterUserTurn, afterResolve,
    turnCalls, userRow, aiRow, chatTurn, resolveSession, resolvedSession.
  replace (sqlite_sequence (db w) + 2)%Z
    with (sqlite_sequence (db w) + 1 + 1)%Z by lia.
  destruct (suppliedSession body) as [sid|]; intros Hok; step.
  - unfold insertMessage at 1. rewrite Hok. step.
    unfold insertMessage. unfold foreign_key_ok in *.
    rewrite getConversation_withMessage.
    destruct (getConversation sid (db w)); [|discriminate]. simpl.
    unfold historyHanded, selectHistory. simpl.
    repeat rewrite <- app_assoc. reflexivity.
  - unfold insertConversation. rewrite Hok. step.
    assert (Hnew : getConversation (uuid rt)
                     (withConversation (db w) (mkConversation (uuid rt) (now rt)))
                   = Some (mkConversation (uuid rt) (now rt))).
    { apply (getConversation_withConversation_new (db w)
               (mkConversation (uuid rt) (now rt))).
      unfold primary_key_free in Hok. simpl.
      destruct (getConversation (uuid rt) (db w)); [discriminate | reflexivity]. }
    unfold insertMessage at 1. unfold foreign_key_ok. rewrite Hnew. step.
    unfold insertMessage, foreign_key_ok.
    rewrite getConversation_withMessage, Hnew. simpl.
    unfold historyHanded, selectHistory. simpl.
    repeat rewrite <- app_assoc. reflexivity.
Qed.

(** A turn whose session the store refuses stops at the refused statement:
    no row is written. *)
Lemma chatTurn_refused (msg : jsstring) (w : World) :
  sessionResolves rt body (db w) = false ->
  exists e,
    chatTurn env rt body msg w =
    (Throws e, mkWorld (db w) (calls w ++ [refusedCall rt body msg])).
Proof.
  unfold sessionResolves, refusedCall, chatTurn, resolveSession.
  destruct (suppliedSession body) as [sid|]; intros Hno; step.
  - unfold insertMessage. rewrite Hno. eexists; reflexivity.
  - unfold insertConversation. rewrite Hno. eexists; reflexivity.
Qed.

(** The same two cases under the [try] of the handler. *)
Lemma turn_ok (msg : jsstring) (w : World) :
  sessionResolves rt body (db w) = true ->
  try_catch (chatTurn env rt body msg)
            (fun _ => mkResponse 500 (ErrorJson MSG_CHAT_FAULT)) w =
  let d := afterUserTurn rt body msg (db w) in
  let history := historyHanded (resolvedSession rt body) d in
  let reply := generateReply env history msg in
  (mkResponse 200 (ReplyJson reply (resolvedSession rt body)),
   mkWorld (withMessage d (aiRow rt body reply (db w)))
           (calls w ++ turnCalls rt body msg history reply)).
Proof.
  intros Hok. unfold try_catch. now rewrite (chatTurn_resolved msg w Hok).
Qed.

Lemma turn_fault (msg : jsstring) (w : World) :
  sessionResolves rt body (db w) = false ->
  try_catch (chatTurn env rt body msg)
            (fun _ => mkResponse 500 (ErrorJson MSG_CHAT_FAULT)) w =
  (mkResponse 500 (ErrorJson MSG_CHAT_FAULT),
   mkWorld (db w) (calls w ++ [refusedCall rt body msg])).
Proof.
  intros Hno. unfold try_catch.
  destruct (chatTurn_refused msg w Hno) as [e ->]. reflexivity.
Qed.

End TurnFacts.

(* ===================================================================== *)
(** ** Validation *)
(* ===================================================================== *)

Section Validation.

Variables (env : LlmEnv) (rt : Runtime).

Lemma postChatMessage_admissible (t : jsstring) (sess : option jsstring)
  (w : World) :
  admissible t ->
  postChatMessage env rt (mkChatRequestBody (Some t) sess) w =
  try_catch (chatTurn env rt (mkChatRequestBody (Some t) sess) (trim t))
            (fun _ => mkResponse 500 (ErrorJson MSG_CHAT_FAULT)) w.
Proof.
  intros [Hne Hlen]. unfold postChatMessage. cbn [message].
  destruct (falsy (trim t)) eqn:Hf; [now apply falsy_nil in Hf|].
  destruct (4000 <? length (trim t))%nat eqn:Hl; [|reflexivity].
  apply Nat.ltb_lt in Hl. lia.
Qed.

(** Only an admissible message is answered with a reply. *)
Lemma postChatMessage_reply_admissible (body : ChatRequestBody) (w w' : World)
  (reply sid : jsstring) :
  postChatMessage env rt body w = (mkResponse 200 (ReplyJson reply sid), w') ->
  exists t, message body = Some t /\ admissible t.
Proof.
  unfold postChatMessage, admissible.
  destruct (message body) as [t|]; cbn [falsy trim trimStart trimEnd rev].
  - destruct (falsy (trim t)) eqn:Hf; [discriminate|].
    destruct (4000 <? length (trim t))%nat eqn:Hl; [discriminate|].
    intros _. exists t. split; [reflexivity|]. split.
    + intros Hnil. rewrite Hnil in Hf. discriminate.
    + apply Nat.ltb_ge in Hl. exact Hl.
  - discriminate.
Qed.

(** C6: a message that is empty once trimmed is answered 400 with the
    empty-message error, and the server is left as it was: no message row, no
    conversation row, no statement run. *)
Theorem empty_message_rejected (t : jsstring) (sess : option jsstring)
  (w : World) :
  trim t = [] ->
  postChatMessage env rt (mkChatRequestBody (Some t) sess) w =
  (mkResponse 400 (ErrorJson MSG_EMPTY), w).
Proof.
  intros Ht. unfold postChatMessage. cbn [message]. rewrite Ht. reflexivity.
Qed.

(** C10: a body without a [message] field is answered like an empty
    message, 400 with the empty-message error, and nothing is changed. *)
Theorem missing_message_rejected (sess : option jsstring) (w : World) :
  postChatMessage env rt (mkChatRequestBody None sess) w =
  (mkResponse 400 (ErrorJson MSG_EMPTY), w).
Proof. reflexivity. Qed.

(** C7, amended: a message whose trimmed text is longer than 4000 code
    units is answered 400 with the too-long error, and the server is left as
    it was. *)
Theorem long_message_rejected (t : jsstring) (sess : option jsstring)
  (w : World) :
  (4000 < length (trim t))%nat ->
  postChatMessage env rt (mkChatRequestBody (Some t) sess) w =
  (mkResponse 400 (ErrorJson MSG_TOO_LONG), w).
Proof.
  intros Hlen. unfold postChatMessage. cbn [message].
  destruct (trim t) as [|c s] eqn:Ht; [simpl in Hlen; lia|].
  cbn [falsy]. apply Nat.ltb_lt in Hlen. now rewrite Hlen.
Qed.

(** The too-long error is given for no other message. *)
Lemma too_long_only_when_long (body : ChatRequestBody) (w w' : World) :
  postChatMessage env rt body w = (mkResponse 400 (ErrorJson MSG_TOO_LONG), w') ->
  exists t, message body = Some t /\ (4000 < length (trim t))%nat.
Proof.
  unfold postChatMessage.
  destruct (message body) as [t|]; cbn [falsy trim trimStart trimEnd rev].
  - destruct (falsy (trim t)); [discriminate|].
    destruct (4000 <? length (trim t))%nat eqn:Hl.
    + intros _. exists t. split; [reflexivity | now apply Nat.ltb_lt].
    + destruct (sessionResolves rt body (db w)) eqn:Hs.
      * rewrite (turn_ok env rt body (trim t) w Hs). discriminate.
      * rewrite (turn_fault env rt body (trim t) w Hs). discriminate.
  - discriminate.
Qed.

End Validation.

Lemma empty_message_rejected_witness :
  trim (lit "  ") = [] /\
  postChatMessage Scenario.env_ok (Scenario.rt_k 1)
    (mkChatRequestBody (Some (lit "  ")) None) Scenario.fresh =
  (mkResponse 400 (ErrorJson MSG_EMPTY), Scenario.fresh).
Proof.
  split; [reflexivity|].
  apply (empty_message_rejected Scenario.env_ok (Scenario.rt_k 1)).
  reflexivity.
Defined.

(** C7 as stated fails on padding: a letter followed by 4000 spaces is 4001
    code units long, yet it is accepted, answered 200, and both rows of the
    turn are written, the user row holding the single letter. *)
Lemma long_padded_message_accepted :
  let r := postChatMessage Scenario.env_no_key (Scenario.rt_k 1)
             (mkChatRequestBody (Some Scenario.padded) None) Scenario.fresh in
  (4000 < length Scenario.padded)%nat /\
  fst r = mkResponse 200 (ReplyJson REPLY_NO_API_KEY Scenario.sid1) /\
  fst r <> mkResponse 400 (ErrorJson MSG_TOO_LONG) /\
  map text (messages (db (snd r))) = [lit "a"; REPLY_NO_API_KEY].
Proof.
  cbv zeta. split; [apply Nat.ltb_lt; vm_compute; reflexivity|].
  split; [vm_compute; reflexivity|].
  split; [|vm_compute; reflexivity].
  assert (E : status (fst (postChatMessage Scenario.env_no_key (Scenario.rt_k 1)
             (mkChatRequestBody (Some Scenario.padded) None) Scenario.fresh))
              = 200%Z) by (vm_compute; reflexivity).
  intros H. rewrite H in E. discriminate E.
Qed.

Lemma long_message_rejected_witness :
  (4000 < length (trim (repeat 97%N 4001)))%nat /\
  postChatMessage Scenario.env_ok (Scenario.rt_k 1)
    (mkChatRequestBody (Some (repeat 97%N 4001)) None) Scenario.fresh =
  (mkResponse 400 (ErrorJson MSG_TOO_LONG), Scenario.fresh).
Proof.
  assert (H : (4000 < length (trim (repeat 97%N 4001)))%nat)
    by (apply Nat.ltb_lt; vm_compute; reflexivity).
  split; [exact H|].
  exact (long_message_rejected Scenario.env_ok (Scenario.rt_k 1)
           (repeat 97%N 4001) None Scenario.fresh H).
Defined.

(* ===================================================================== *)
(** ** Appending and reading back *)
(* ===================================================================== *)

Section Persistence.

(** The handler binds a supplied identifier no conversation has: the
    insert of the user row throws the foreign-key error out of the [try]
    body, before anything is written. *)
Lemma chatTurn_foreign_key (env : LlmEnv) (rt : Runtime)
  (body : ChatRequestBody) (msg cid : jsstring) (w : World) :
  suppliedSession body = Some cid ->
  ~ In cid (map id (conversations (db w))) ->
  chatTurn env rt body msg w =
  (Throws SQLITE_CONSTRAINT_FOREIGNKEY,
   mkWorld (db w)
           (calls w ++ [RunInsertMessage cid (lit "user") msg (now rt)])).
Proof.
  intros Hs Hnew. unfold chatTurn, resolveSession. rewrite Hs.
  unfold bind, ret, run, insertMessage.
  destruct (foreign_key_ok (db w) cid) eqn:Hfk; [|reflexivity].
  now apply foreign_key_ok_iff in Hfk.
Qed.

(** C5: appending a message under an identifier no conversation row has
    fails with the foreign-key constraint error and leaves both tables as
    they were, and in the handler that error leaves the [try] body at the
    insert of the user row, so the request is answered 500 with nothing
    written. Under the identifier of a conversation the append succeeds: the
    table is the old one followed by the new row, whose id is the one
    returned and is the next value of the counter, a reading of the
    conversation finds the row, and [conversations] is untouched. *)
Theorem insertMessage_foreign_key (cid sndr txt : jsstring) (at_ : Z) (d : Db) :
  (~ In cid (map id (conversations d)) ->
   insertMessage cid sndr txt at_ d = (Throws SQLITE_CONSTRAINT_FOREIGNKEY, d)
   /\
   forall env rt body msg w,
     db w = d -> suppliedSession body = Some cid ->
     chatTurn env rt body msg w =
       (Throws SQLITE_CONSTRAINT_FOREIGNKEY,
        mkWorld d (calls w ++ [RunInsertMessage cid (lit "user") msg (now rt)]))
     /\
     (message body = Some msg -> admissible msg ->
      fst (postChatMessage env rt body w) =
        mkResponse 500 (ErrorJson MSG_CHAT_FAULT) /\
      db (snd (postChatMessage env rt body w)) = d))
  /\
  (In cid (map id (conversations d)) ->
   exists run d',
     insertMessage cid sndr txt at_ d = (Returns run, d') /\
     changes run = 1%Z /\
     lastInsertRowid run = (sqlite_sequence d + 1)%Z /\
     conversations d' = conversations d /\
     messages d' =
       messages d ++
       [mkMessage (lastInsertRowid run) cid
                  (toWellFormed sndr) (toWellFormed txt) at_] /\
     sqlite_sequence d' = lastInsertRowid run /\
     In (mkMessage (lastInsertRowid run) cid
                   (toWellFormed sndr) (toWellFormed txt) at_)
        (messagesOf cid d')).
Proof.
  split; intros H.
  - split.
    + unfold insertMessage.
      destruct (foreign_key_ok d cid) eqn:Hfk; [|reflexivity].
      now apply foreign_key_ok_iff in Hfk.
    + intros env rt body msg w Hd Hs. subst d.
      assert (Hturn := chatTurn_foreign_key env rt body msg cid w Hs H).
      split; [exact Hturn|]. intros Hm Hadm.
      unfold postChatMessage. rewrite Hm.
      destruct Hadm as [Hne Hlen].
      destruct (falsy (trim msg)) eqn:Hf; [now apply falsy_nil in Hf|].
      destruct (4000 <? length (trim msg))%nat eqn:Hl;
        [apply Nat.ltb_lt in Hl; lia|].
      unfold try_catch.
      rewrite (chatTurn_foreign_key env rt body (trim msg) cid w Hs H).
      split; reflexivity.
  - apply foreign_key_ok_iff in H. unfold insertMessage. rewrite H.
    eexists. eexists. split; [reflexivity|].
    cbn [changes lastInsertRowid withMessage conversations messages
         sqlite_sequence msg_id].
    repeat split.
    apply messagesOf_in. split; [|reflexivity].
    cbn [messages]. apply in_or_app. right. now left.
Qed.

(** In the handler the refused insert is the first write of the turn: the
    request is answered 500 and the tables are as before. *)
Lemma unknown_session_fault (env : LlmEnv) (rt : Runtime) (t cid : jsstring)
  (w : World) :
  admissible t -> cid <> [] ->
  ~ In cid (map id (conversations (db w))) ->
  let r := postChatMessage env rt (mkChatRequestBody (Some t) (Some cid)) w in
  fst r = mkResponse 500 (ErrorJson MSG_CHAT_FAULT) /\ db (snd r) = db w.
Proof.
  intros Hadm Hcid Hnew r. subst r.
  rewrite (postChatMessage_admissible env rt t (Some cid) w Hadm).
  rewrite turn_fault; [split; reflexivity|].
  unfold sessionResolves, suppliedSession. cbn [sessionId].
  destruct cid as [|c cid]; [congruence|]. cbn [falsy].
  destruct (foreign_key_ok (db w) (c :: cid)) eqn:Hfk; [|reflexivity].
  now apply foreign_key_ok_iff in Hfk.
Qed.

(** C8: the history lookup answers 404 when no conversation has the
    identifier; otherwise it answers 200 with the identifier, the creation
    time of the conversation and every message of the conversation, none
    left out or repeated, in ascending time order. Either way the server is
    left as it was. *)
Theorem getChatHistory_spec (sid : jsstring) (w : World) :
  (~ In sid (map id (conversations (db w))) ->
   getChatHistory sid w = (mkResponse 404 (ErrorJson MSG_NOT_FOUND), w))
  /\
  (In sid (map id (conversations (db w))) ->
   exists conv rows,
     getChatHistory sid w =
       (mkResponse 200 (HistoryJson sid (conv_created_at conv) rows), w) /\
     In conv (conversations (db w)) /\ id conv = sid /\
     Sorted row_le rows /\
     Permutation
       (map (fun m => (sender m, text m, created_at m))
            (filter (fun m => eqb (conversation_id m) sid) (messages (db w))))
       rows).
Proof.
  unfold getChatHistory. split; intros H.
  - apply getConversation_none in H. now rewrite H.
  - destruct (getConversation sid (db w)) as [conv|] eqn:Hc.
    + apply getConversation_some in Hc as [Hin Hid].
      exists conv, (selectMessages sid (db w)).
      repeat split; trivial.
      * apply selectMessages_sorted.
      * unfold selectMessages. apply Permutation_map, messagesOf_perm.
    + now apply getConversation_none in Hc.
Qed.

End Persistence.

Lemma insertMessage_foreign_key_witness :
  (~ In (lit "nobody") (map id (conversations migrated)) /\
   insertMessage (lit "nobody") (lit "user") (lit "hi") 7 migrated =
   (Throws SQLITE_CONSTRAINT_FOREIGNKEY, migrated) /\
   fst (postChatMessage Scenario.env_ok (Scenario.rt_k 1)
          (mkChatRequestBody (Some (lit "hi")) (Some (lit "nobody")))
          Scenario.fresh) =
   mkResponse 500 (ErrorJson MSG_CHAT_FAULT))
  /\
  (In Scenario.sid1
      (map id (conversations (db (Scenario.exchanges Scenario.env_ok 1)))) /\
   exists run d',
     insertMessage Scenario.sid1 (lit "user") (lit "hi") 7
       (db (Scenario.exchanges Scenario.env_ok 1)) = (Returns run, d') /\
     lastInsertRowid run = 3%Z /\
     map text (messages d') = [lit "A"; lit "ok"; lit "hi"]).
Proof.
  assert (H : ~ In (lit "nobody") (map id (conversations migrated)))
    by (simpl; tauto).
  assert (H' : In Scenario.sid1
                 (map id (conversations (db (Scenario.exchanges Scenario.env_ok 1)))))
    by (vm_compute; left; reflexivity).
  destruct (proj1 (insertMessage_foreign_key (lit "nobody") (lit "user")
                     (lit "hi") 7 migrated) H) as [Hthrow Hpost].
  destruct (Hpost Scenario.env_ok (Scenario.rt_k 1)
              (mkChatRequestBody (Some (lit "hi")) (Some (lit "nobody")))
              (lit "hi") Scenario.fresh eq_refl eq_refl) as [_ Hfault].
  assert (Hadm : admissible (lit "hi")).
  { split; [vm_compute; discriminate|].
    apply Nat.leb_le. vm_compute. reflexivity. }
  split; [split; [exact H | split; [exact Hthrow | exact (proj1 (Hfault eq_refl Hadm))]]|].
  split; [exact H'|].
  destruct (proj2 (insertMessage_foreign_key Scenario.sid1 (lit "user")
                     (lit "hi") 7 (db (Scenario.exchanges Scenario.env_ok 1))) H')
    as (run & d' & Hrun & _ & Hid & _ & Hrows & _).
  exists run, d'. split; [exact Hrun|]. split; [exact Hid|].
  rewrite Hrows, map_app. reflexivity.
Defined.

Lemma getChatHistory_spec_witness :
  (~ In (lit "nobody") (map id (conversations (db Scenario.fresh))) /\
   getChatHistory (lit "nobody") Scenario.fresh =
   (mkResponse 404 (ErrorJson MSG_NOT_FOUND), Scenario.fresh))
  /\
  (In Scenario.sid1
      (map id (conversations (db (Scenario.exchanges Scenario.env_ok 2)))) /\
   exists created rows,
     fst (getChatHistory Scenario.sid1 (Scenario.exchanges Scenario.env_ok 2)) =
       mkResponse 200 (HistoryJson Scenario.sid1 created rows) /\
     Sorted row_le rows /\ length rows = 4%nat).
Proof.
  assert (H : ~ In (lit "nobody") (map id (conversations (db Scenario.fresh))))
    by (simpl; tauto).
  assert (H' : In Scenario.sid1
                 (map id (conversations (db (Scenario.exchanges Scenario.env_ok 2)))))
    by (vm_compute; left; reflexivity).
  split; split; [exact H | | exact H' |].
  - exact (proj1 (getChatHistory_spec (lit "nobody") Scenario.fresh) H).
  - destruct (proj2 (getChatHistory_spec Scenario.sid1
                       (Scenario.exchanges Scenario.env_ok 2)) H')
      as (conv & rows & Hget & _ & _ & Hsorted & Hperm).
    exists (conv_created_at conv), rows.
    split; [now rewrite Hget|]. split; [exact Hsorted|].
    rewrite <- (Permutation_length Hperm). vm_compute. reflexivity.
Defined.

(* ===================================================================== *)
(** ** The reply generator *)
(* ===================================================================== *)

Section Generator.

Variables (env : LlmEnv) (history : list ChatMessage) (userMessage : jsstring).

(** Without reply text from the provider the result is one of the three
    fixed strings. *)
Lemma generateReply_fails :
  generationFails env history userMessage = true ->
  In (generateReply env history userMessage) fallbackReplies.
Proof.
  unfold generationFails, generateReply, tryCreate, fallbackReplies.
  destruct (openai env) as [c|]; [|simpl; tauto].
  destruct (key_missing (OPENAI_API_KEY env)); [simpl; tauto|].
  destruct (c (createParams history userMessage)) as [|response];
    [simpl; tauto|].
  destruct (firstContent response) as [[reply|]|]; simpl; try tauto.
  discriminate.
Qed.


End Generator.


Lemma fallbackReplies_support (r : jsstring) :
  In r fallbackReplies -> r <> REPLY_NO_CONTENT -> namesSupport r = true.
Proof.
  unfold fallbackReplies. simpl.
  intros [<-|[<-|[<-|[]]]] Hne; try (vm_compute; reflexivity).
  now elim Hne.
Qed.

(* ===================================================================== *)
(** ** Turns that go through *)
(* ===================================================================== *)

Section Turns.

Variables (env : LlmEnv) (rt : Runtime).

Lemma postChatMessage_ok (t : jsstring) (sess : option jsstring) (w : World) :
  let body := mkChatRequestBody (Some t) sess in
  admissible t ->
  sessionResolves rt body (db w) = true ->
  postChatMessage env rt body w =
  let d := afterUserTurn rt body (trim t) (db w) in
  let history := historyHanded (resolvedSession rt body) d in
  let reply := generateReply env history (trim t) in
  (mkResponse 200 (ReplyJson reply (resolvedSession rt body)),
   mkWorld (withMessage d (aiRow rt body reply (db w)))
           (calls w ++ turnCalls rt body (trim t) history reply)).
Proof.
  intros body Hadm Hok. unfold body.
  rewrite (postChatMessage_admissible env rt t sess w Hadm).
  now apply turn_ok.
Qed.

(** A reply is the answer of a turn that went through. *)
Lemma postChatMessage_reply_inv (t : jsstring) (sess : option jsstring)
  (w w' : World) (reply sid : jsstring) :
  let body := mkChatRequestBody (Some t) sess in
  postChatMessage env rt body w = (mkResponse 200 (ReplyJson reply sid), w') ->
  admissible t /\ sessionResolves rt body (db w) = true.
Proof.
  intros body H. subst body.
  destruct (postChatMessage_reply_admissible env rt _ w w' reply sid H)
    as (t' & Ht & Hadm).
  injection Ht as <-. split; [exact Hadm|].
  destruct (sessionResolves rt _ (db w)) eqn:Hs; [reflexivity|].
  rewrite (postChatMessage_admissible env rt t sess w Hadm) in H.
  rewrite (turn_fault env rt _ (trim t) w Hs) in H. discriminate.
Qed.

(** The conversation of a turn is there once the session is resolved. *)
Lemma getConversation_afterResolve (body : ChatRequestBody) (d : Db) :
  sessionResolves rt body d = true ->
  exists conv,
    getConversation (resolvedSession rt body) (afterResolve rt body d) = Some conv.
Proof.
  unfold sessionResolves, resolvedSession, afterResolve.
  destruct (suppliedSession body) as [sid|].
  - unfold foreign_key_ok. destruct (getConversation sid d) as [c|];
      [eauto | discriminate].
  - unfold primary_key_free. intros H.
    exists (mkConversation (uuid rt) (now rt)).
    apply (getConversation_withConversation_new d
             (mkConversation (uuid rt) (now rt))).
    simpl. destruct (getConversation (uuid rt) d); [discriminate | reflexivity].
Qed.

(** Reading the conversation back after a turn shows both rows of it. *)
Lemma lookup_after_turn (body : ChatRequestBody) (msg reply : jsstring)
  (d : Db) (cs : list Call) :
  sessionResolves rt body d = true ->
  let sid := resolvedSession rt body in
  let w' := mkWorld (withMessage (afterUserTurn rt body msg d)
                                 (aiRow rt body reply d)) cs in
  exists created rows,
    getChatHistory sid w' = (mkResponse 200 (HistoryJson sid created rows), w') /\
    In (lit "user", toWellFormed msg, now rt) rows /\
    In (lit "ai", toWellFormed reply, now_reply rt) rows.
Proof.
  intros Hok sid w'.
  destruct (getConversation_afterResolve body d Hok) as [conv Hconv].
  exists (conv_created_at conv), (selectMessages sid (db w')).
  split; [|split].
  - unfold getChatHistory, w'. cbn [db].
    unfold afterUserTurn. rewrite !getConversation_withMessage.
    fold sid in Hconv. now rewrite Hconv.
  - unfold selectMessages.
    apply (in_map (fun m => (sender m, text m, created_at m)) _
                  (userRow rt body msg d)).
    apply messagesOf_in. split; [|reflexivity].
    unfold w', afterUserTurn, withMessage. cbn [db messages].
    apply in_or_app. left. apply in_or_app. right. now left.
  - unfold selectMessages.
    apply (in_map (fun m => (sender m, text m, created_at m)) _
                  (aiRow rt body reply d)).
    apply messagesOf_in. split; [|reflexivity].
    unfold w', withMessage. cbn [db messages].
    apply in_or_app. right. now left.
Qed.

Lemma messages_afterResolve (body : ChatRequestBody) (d : Db) :
  messages (afterResolve rt body d) = messages d.
Proof. unfold afterResolve. now destruct (suppliedSession body). Qed.

End Turns.

Section TurnClaims.

Variables (env : LlmEnv) (rt : Runtime).



(** C9, amended: when a message is answered with a reply and a session
    identifier, the history lookup of that identifier, on the server as the
    turn left it, answers 200 and lists a [user] entry whose text is the
    trimmed message as the table keeps it: every unpaired surrogate replaced
    by U+FFFD, so the trimmed message itself when it is well formed. *)
Theorem message_round_trip (t : jsstring) (sess : option jsstring)
  (w w' : World) (reply sid : jsstring) :
  postChatMessage env rt (mkChatRequestBody (Some t) sess) w =
    (mkResponse 200 (ReplyJson reply sid), w') ->
  exists created rows,
    getChatHistory sid w' = (mkResponse 200 (HistoryJson sid created rows), w') /\
    In (lit "user", toWellFormed (trim t), now rt) rows /\
    (isWellFormed (trim t) = true -> In (lit "user", trim t, now rt) rows).
Proof.
  intros H.
  destruct (postChatMessage_reply_inv env rt t sess w w' reply sid H)
    as [Hadm Hok].
  rewrite (postChatMessage_ok env rt t sess w Hadm Hok) in H. cbv zeta in H.
  injection H as Hreply Hsid Hw. subst sid w'.
  set (body := mkChatRequestBody (Some t) sess) in *.
  set (history := historyHanded _ _).
  set (r := generateReply env history (trim t)).
  destruct (lookup_after_turn rt body (trim t) r (db w)
              (calls w ++ turnCalls rt body (trim t) history r) Hok)
    as (created & rows & Hget & Hu & _).
  exists created, rows. split; [exact Hget|]. split; [exact Hu|].
  intros Hwf. now rewrite <- (toWellFormed_fixed (trim t) Hwf).
Qed.

End TurnClaims.






(** C9 as stated fails on an unpaired surrogate: the valid message [a],
    U+D800, [b] is answered 200, and the history of the returned session
    holds [a], U+FFFD, [b], not the text that was sent. *)
Lemma round_trip_fails_on_lone_surrogate :
  fst (postChatMessage Scenario.env_ok (Scenario.rt_k 1)
         (mkChatRequestBody (Some [97; 55296; 98]%N) None) Scenario.fresh) =
  mkResponse 200 (ReplyJson (lit "ok") Scenario.sid1)
  /\
  trim [97; 55296; 98]%N = [97; 55296; 98]%N
  /\
  fst (getChatHistory Scenario.sid1
         (snd (postChatMessage Scenario.env_ok (Scenario.rt_k 1)
                 (mkChatRequestBody (Some [97; 55296; 98]%N) None)
                 Scenario.fresh))) =
  mkResponse 200
    (HistoryJson Scenario.sid1 1
       [(lit "user", [97; 65533; 98]%N, 1%Z); (lit "ai", lit "ok", 2%Z)])
  /\
  ~ In (lit "user", [97; 55296; 98]%N, 1%Z)
       [(lit "user", [97; 65533; 98]%N, 1%Z); (lit "ai", lit "ok", 2%Z)].
Proof.
  split; [vm_compute; reflexivity|].
  split; [vm_compute; reflexivity|].
  split; [vm_compute; reflexivity|].
  intros [H|[H|[]]]; vm_compute in H; discriminate H.
Qed.

Lemma message_round_trip_witness :
  exists w',
    postChatMessage Scenario.env_ok (Scenario.rt_k 1)
      (mkChatRequestBody (Some (lit " hi ")) None) Scenario.fresh =
    (mkResponse 200 (ReplyJson (lit "ok") Scenario.sid1), w') /\
    exists created rows,
      getChatHistory Scenario.sid1 w' =
        (mkResponse 200 (HistoryJson Scenario.sid1 created rows), w') /\
      In (lit "user", lit "hi", 1%Z) rows.
Proof.
  pose (r := postChatMessage Scenario.env_ok (Scenario.rt_k 1)
               (mkChatRequestBody (Some (lit " hi ")) None) Scenario.fresh).
  assert (H : postChatMessage Scenario.env_ok (Scenario.rt_k 1)
                (mkChatRequestBody (Some (lit " hi ")) None) Scenario.fresh =
              (mkResponse 200 (ReplyJson (lit "ok") Scenario.sid1), snd r))
    by (vm_compute; reflexivity).
  exists (snd r). split; [exact H|].
  destruct (message_round_trip Scenario.env_ok (Scenario.rt_k 1) (lit " hi ")
              None Scenario.fresh (snd r) (lit "ok") Scenario.sid1 H)
    as (created & rows & Hget & _ & Hwf).
  exists created, rows. split; [exact Hget|].
  apply Hwf. vm_compute. reflexivity.
Defined.

(* ===================================================================== *)
(** ** What [generateReply] returns *)
(* ===================================================================== *)

(** C2 as stated fails twice. A response whose first choice has no content
    is a failure path, and its fixed string names no support contact; and a
    response whose content is the empty string is returned as it is, so the
    reply is empty. *)
Lemma generateReply_contract_fails :
  (generationFails Scenario.env_null_content [] (lit "hi") = true /\
   generateReply Scenario.env_null_content [] (lit "hi") = REPLY_NO_CONTENT /\
   namesSupport (generateReply Scenario.env_null_content [] (lit "hi")) = false)
  /\
  generateReply Scenario.env_empty_content [] (lit "hi") = [].
Proof.
  split; [|vm_compute; reflexivity].
  split; [vm_compute; reflexivity|].
  split; vm_compute; reflexivity.
Qed.

(** C2, amended: [generateReply] is total and returns, case by case: on a
    missing credential (no client, or no key) the fixed string
    [REPLY_NO_API_KEY]; on a call that is rejected, or answered without a
    [choices] array, the fixed string [REPLY_LLM_ERROR]; on a response whose
    first choice has no content the fixed string [REPLY_NO_CONTENT]; and
    otherwise the content of the first choice, unchanged. The first two
    strings name the support contact, the third does not, and none of the
    three is empty. *)
Theorem generateReply_total (env : LlmEnv) (history : list ChatMessage)
  (userMessage : jsstring) :
  let r := generateReply env history userMessage in
  (openai env = None \/ key_missing (OPENAI_API_KEY env) = true ->
   r = REPLY_NO_API_KEY) /\
  (forall c,
     openai env = Some c -> key_missing (OPENAI_API_KEY env) = false ->
     (c (createParams history userMessage) = Rejected ->
      r = REPLY_LLM_ERROR) /\
     (forall response,
        c (createParams history userMessage) = Fulfilled response ->
        (choices response = None -> r = REPLY_LLM_ERROR) /\
        (firstContent response = Some None -> r = REPLY_NO_CONTENT) /\
        (forall reply,
           firstContent response = Some (Some reply) -> r = reply))) /\
  (generationFails env history userMessage = true ->
   r = REPLY_NO_API_KEY \/ r = REPLY_LLM_ERROR \/ r = REPLY_NO_CONTENT) /\
  namesSupport REPLY_NO_API_KEY = true /\
  namesSupport REPLY_LLM_ERROR = true /\
  namesSupport REPLY_NO_CONTENT = false /\
  REPLY_NO_API_KEY <> [] /\ REPLY_LLM_ERROR <> [] /\ REPLY_NO_CONTENT <> [].
Proof.
  intros r. subst r.
  split; [|split; [|split]].
  - unfold generateReply. intros [-> | Hk]; [reflexivity|].
    rewrite Hk. now destruct (openai env).
  - intros c Hc Hk. unfold generateReply, tryCreate. rewrite Hc, Hk.
    split.
    + now intros ->.
    + intros response ->. split; [|split].
      * unfold firstContent. now intros ->.
      * now intros ->.
      * now intros reply ->.
  - intros Hfail. apply generateReply_fails in Hfail.
    unfold fallbackReplies in Hfail. simpl in Hfail.
    destruct Hfail as [<-|[<-|[<-|[]]]]; tauto.
  - split; [vm_compute; reflexivity|].
    split; [vm_compute; reflexivity|].
    split; [vm_compute; reflexivity|].
    split; [discriminate|]. split; discriminate.
Qed.

Lemma generateReply_total_witness :
  (openai Scenario.env_no_key = None \/
   key_missing (OPENAI_API_KEY Scenario.env_no_key) = true) /\
  generateReply Scenario.env_no_key [] (lit "hi") = REPLY_NO_API_KEY /\
  generateReply Scenario.env_null_content [] (lit "hi") = REPLY_NO_CONTENT /\
  generateReply Scenario.env_ok [] (lit "hi") = lit "ok" /\
  generateReply
    (mkLlmEnv (Some (fun _ => Rejected)) (Some (lit "sk-test")))
    [] (lit "hi") = REPLY_LLM_ERROR.
Proof.
  assert (H : openai Scenario.env_no_key = None \/
              key_missing (OPENAI_API_KEY Scenario.env_no_key) = true)
    by (left; reflexivity).
  split; [exact H|].
  split; [exact (proj1 (generateReply_total Scenario.env_no_key []
                          (lit "hi")) H)|].
  split; [|split].
  - destruct (proj1 (proj2 (generateReply_total Scenario.env_null_content []
                              (lit "hi"))) _ eq_refl eq_refl) as [_ Hful].
    destruct (Hful _ eq_refl) as (_ & Hnone & _).
    exact (Hnone eq_refl).
  - destruct (proj1 (proj2 (generateReply_total Scenario.env_ok []
                              (lit "hi"))) _ eq_refl eq_refl) as [_ Hful].
    destruct (Hful _ eq_refl) as (_ & _ & Hsome).
    exact (Hsome (lit "ok") eq_refl).
  - destruct (proj1 (proj2 (generateReply_total
                              (mkLlmEnv (Some (fun _ => Rejected))
                                        (Some (lit "sk-test")))
                              [] (lit "hi"))) _ eq_refl eq_refl) as [Hrej _].
    exact (Hrej eq_refl).
Defined.

(** Which fixed string each failure gives. *)
Lemma generateReply_no_credential (env : LlmEnv) (history : list ChatMessage)
  (userMessage : jsstring) :
  openai env = None \/ key_missing (OPENAI_API_KEY env) = true ->
  generateReply env history userMessage = REPLY_NO_API_KEY.
Proof.
  unfold generateReply. intros [->| ->]; [reflexivity|].
  now destruct (openai env).
Qed.

Lemma generateReply_rejected (env : LlmEnv) (c : Client)
  (history : list ChatMessage) (userMessage : jsstring) :
  openai env = Some c -> key_missing (OPENAI_API_KEY env) = false ->
  c (createParams history userMessage) = Rejected ->
  generateReply env history userMessage = REPLY_LLM_ERROR.
Proof.
  unfold generateReply, tryCreate. now intros -> -> ->.
Qed.

Lemma generateReply_no_content (env : LlmEnv) (c : Client)
  (response : ChatCompletion) (history : list ChatMessage)
  (userMessage : jsstring) :
  openai env = Some c -> key_missing (OPENAI_API_KEY env) = false ->
  c (createParams history userMessage) = Fulfilled response ->
  firstContent response = Some None ->
  generateReply env history userMessage = REPLY_NO_CONTENT.
Proof.
  unfold generateReply, tryCreate. now intros -> -> -> ->.
Qed.

(* ===================================================================== *)
(** ** The context window *)
(* ===================================================================== *)

Section ContextWindow.

Lemma slice_last_length {A : Type} (n : nat) (l : list A) :
  (length (slice_last n l) <= n)%nat.
Proof. unfold slice_last. rewrite length_skipn. lia. Qed.

Lemma slice_last_map {A B : Type} (f : A -> B) (n : nat) (l : list A) :
  slice_last n (map f l) = map f (slice_last n l).
Proof. unfold slice_last. now rewrite length_map, skipn_map. Qed.

(** The window never holds more than ten entries. *)
Lemma contextWindow_length (history : list ChatMessage) :
  (length (contextWindow history) <= 10)%nat.
Proof. apply slice_last_length. Qed.

(** The window is cut from the twenty oldest rows of the conversation. *)
Lemma contextWindow_of_oldest (sid : jsstring) (d : Db) :
  contextWindow (historyHanded sid d) =
  map chatMessageOfRow
      (map (fun m => (sender m, text m))
           (slice_last 10 (limit 20 (messagesOf sid d)))).
Proof.
  unfold contextWindow, historyHanded. now rewrite !slice_last_map.
Qed.

(** While the conversation has at most twenty messages, the window is its
    ten most recent messages, oldest first. *)
Lemma contextWindow_recent_when_short (sid : jsstring) (d : Db) :
  (length (messagesOf sid d) <= 20)%nat ->
  contextWindow (historyHanded sid d) = mostRecent 10 sid d.
Proof.
  intros Hlen. rewrite contextWindow_of_oldest. unfold mostRecent, limit.
  now rewrite firstn_all2.
Qed.

(** C1, at 25 exchanges: the 26th request on a conversation of 50 stored
    messages is answered 200, and the history the generator is called with
    yields a window of ten entries, but they are messages 11 to 20 of the
    conversation (the sixth to tenth exchange), while its ten most recent
    messages are the replies and questions of exchanges 21 to 26. *)
Theorem context_window_after_25_exchanges :
  let w := Scenario.exchanges Scenario.env_ok 25 in
  let r := postChatMessage Scenario.env_ok (Scenario.rt_k 26)
             (Scenario.body_k 26) w in
  let d := afterUserTurn (Scenario.rt_k 26) (Scenario.body_k 26)
             (Scenario.letter 26) (db w) in
  length (messages (db w)) = 50%nat /\
  status (fst r) = 200%Z /\
  Scenario.lastHistory (calls (snd r)) = Some (historyHanded Scenario.sid1 d) /\
  contextWindow (historyHanded Scenario.sid1 d) =
    [Scenario.turn 6; Scenario.ok; Scenario.turn 7; Scenario.ok;
     Scenario.turn 8; Scenario.ok; Scenario.turn 9; Scenario.ok;
     Scenario.turn 10; Scenario.ok] /\
  mostRecent 10 Scenario.sid1 d =
    [Scenario.ok; Scenario.turn 22; Scenario.ok; Scenario.turn 23;
     Scenario.ok; Scenario.turn 24; Scenario.ok; Scenario.turn 25;
     Scenario.ok; Scenario.turn 26].
Proof.
  cbv zeta.
  split; [vm_compute; reflexivity|].
  split; [vm_compute; reflexivity|].
  split; [vm_compute; reflexivity|].
  split; vm_compute; reflexivity.
Qed.

End ContextWindow.

(* ===================================================================== *)
(** ** More on trimming *)
(* ===================================================================== *)

Section TrimFacts.

Lemma trimStart_noLeading (s : jsstring) : noLeading (trimStart s).
Proof.
  induction s as [|c s IH]; simpl; [exact I|].
  destruct (isWhiteSpace c) eqn:Hc; [exact IH | exact Hc].
Qed.

Lemma trimStart_fixed (s : jsstring) : noLeading s -> trimStart s = s.
Proof. destruct s as [|c s]; simpl; [reflexivity|]. now intros ->. Qed.

Lemma trimStart_snoc (l : jsstring) (c : N) :
  isWhiteSpace c = false -> trimStart (l ++ [c]) = trimStart l ++ [c].
Proof.
  intros Hc. induction l as [|a l IH]; simpl.
  - now rewrite Hc.
  - destruct (isWhiteSpace a); [exact IH | reflexivity].
Qed.

Lemma trimEnd_cons (c : N) (s : jsstring) :
  isWhiteSpace c = false -> trimEnd (c :: s) = c :: trimEnd s.
Proof.
  intros Hc. unfold trimEnd. simpl rev at 2.
  rewrite (trimStart_snoc (rev s) c Hc), rev_app_distr. reflexivity.
Qed.

Lemma trimEnd_noLeading (s : jsstring) : noLeading s -> noLeading (trimEnd s).
Proof.
  destruct s as [|c s]; simpl; [intros _; exact I|].
  intros Hc. now rewrite (trimEnd_cons c s Hc).
Qed.

Lemma trimEnd_idem (s : jsstring) : trimEnd (trimEnd s) = trimEnd s.
Proof.
  unfold trimEnd. rewrite rev_involutive.
  now rewrite (trimStart_fixed _ (trimStart_noLeading (rev s))).
Qed.

(** Trimming what is trimmed changes nothing. *)
Lemma trim_idem (s : jsstring) : trim (trim s) = trim s.
Proof.
  unfold trim.
  rewrite (trimStart_fixed _ (trimEnd_noLeading _ (trimStart_noLeading s))).
  apply trimEnd_idem.
Qed.

(** A trimmed string has white space at neither end. *)
Lemma trim_noLeading (s : jsstring) : noLeading (trim s).
Proof. apply trimEnd_noLeading, trimStart_noLeading. Qed.

Lemma trim_noTrailing (s : jsstring) : noLeading (rev (trim s)).
Proof.
  unfold trim, trimEnd. rewrite rev_involutive. apply trimStart_noLeading.
Qed.

Lemma admissible_trim (t : jsstring) : admissible t -> admissible (trim t).
Proof. unfold admissible. now rewrite trim_idem. Qed.

Lemma trim_fixed (s : jsstring) :
  noLeading s -> noLeading (rev s) -> trim s = s.
Proof.
  intros Hs Hr. unfold trim, trimEnd.
  rewrite (trimStart_fixed s Hs), (trimStart_fixed (rev s) Hr).
  apply rev_involutive.
Qed.

End TrimFacts.

(* ===================================================================== *)
(** ** What the table keeps of a text *)
(* ===================================================================== *)

Section StoredText.

Ltac not_blank :=
  unfold isWhiteSpace;
  repeat (apply orb_false_intro);
  try (apply N.eqb_neq; lia);
  try (apply andb_false_iff;
       first [left; apply N.leb_gt; lia | right; apply N.leb_gt; lia]).

Lemma isHighSurrogate_not_blank (c : N) :
  isHighSurrogate c = true -> isWhiteSpace c = false.
Proof.
  unfold isHighSurrogate. intros H. apply andb_true_iff in H as [H1 H2].
  apply N.leb_le in H1, H2. not_blank.
Qed.

Lemma isLowSurrogate_not_blank (c : N) :
  isLowSurrogate c = true -> isWhiteSpace c = false.
Proof.
  unfold isLowSurrogate. intros H. apply andb_true_iff in H as [H1 H2].
  apply N.leb_le in H1, H2. not_blank.
Qed.

Lemma toWellFormed_cons2 (c d : N) (s : jsstring) :
  toWellFormed (c :: d :: s) =
  if isHighSurrogate c then
    if isLowSurrogate d then c :: d :: toWellFormed s
    else REPLACEMENT :: toWellFormed (d :: s)
  else if isLowSurrogate c then REPLACEMENT :: toWellFormed (d :: s)
  else c :: toWellFormed (d :: s).
Proof. reflexivity. Qed.

(** Unit by unit, the stored text is blank where the text is. *)
Lemma toWellFormed_blanks (s : jsstring) :
  Forall2 (fun c c' => isWhiteSpace c' = isWhiteSpace c) s (toWellFormed s).
Proof.
  assert (H : forall s,
             Forall2 (fun c c' => isWhiteSpace c' = isWhiteSpace c)
                     s (toWellFormed s) /\
             forall c,
               Forall2 (fun c c' => isWhiteSpace c' = isWhiteSpace c)
                       (c :: s) (toWellFormed (c :: s))).
  { clear s. induction s as [|d s [IH1 IH2]]; split.
    - constructor.
    - intros c. simpl.
      destruct (isHighSurrogate c) eqn:Hh.
      + constructor; [|constructor].
        now rewrite (isHighSurrogate_not_blank c Hh).
      + destruct (isLowSurrogate c) eqn:Hl; constructor;
          try constructor; trivial.
        now rewrite (isLowSurrogate_not_blank c Hl).
    - apply IH2.
    - intros c. rewrite toWellFormed_cons2.
      destruct (isHighSurrogate c) eqn:Hh.
      + destruct (isLowSurrogate d) eqn:Hl.
        * constructor; [reflexivity|]. constructor; [reflexivity | exact IH1].
        * constructor; [|exact (IH2 d)].
          now rewrite (isHighSurrogate_not_blank c Hh).
      + destruct (isLowSurrogate c) eqn:Hl; constructor;
          trivial; try exact (IH2 d).
        now rewrite (isLowSurrogate_not_blank c Hl). }
  apply H.
Qed.

Lemma toWellFormed_length (s : jsstring) :
  length (toWellFormed s) = length s.
Proof. symmetry. eapply Forall2_length, toWellFormed_blanks. Qed.

Lemma Forall2_snoc {A B : Type} (R : A -> B -> Prop) (l : list A)
  (l' : list B) (x : A) (y : B) :
  Forall2 R l l' -> R x y -> Forall2 R (l ++ [x]) (l' ++ [y]).
Proof. intros Hl Hxy. apply Forall2_app; [exact Hl | now constructor]. Qed.

Lemma Forall2_rev {A B : Type} (R : A -> B -> Prop) (l : list A)
  (l' : list B) :
  Forall2 R l l' -> Forall2 R (rev l) (rev l').
Proof.
  induction 1 as [|x y l l' Hxy Hl IH]; simpl; [constructor|].
  now apply Forall2_snoc.
Qed.

Lemma noLeading_blanks (s s' : jsstring) :
  Forall2 (fun c c' => isWhiteSpace c' = isWhiteSpace c) s s' ->
  noLeading s -> noLeading s'.
Proof. destruct 1 as [|c c' s s' Hc _]; simpl; [trivial|]. now rewrite Hc. Qed.

(** A trimmed text is stored trimmed. *)
Lemma toWellFormed_trimmed (s : jsstring) :
  trim s = s -> trim (toWellFormed s) = toWellFormed s.
Proof.
  intros Hs. apply trim_fixed.
  - apply (noLeading_blanks s _ (toWellFormed_blanks s)).
    rewrite <- Hs. apply trim_noLeading.
  - apply (noLeading_blanks (rev s) _
             (Forall2_rev _ _ _ (toWellFormed_blanks s))).
    rewrite <- Hs. apply trim_noTrailing.
Qed.

(** An admissible message is stored as an admissible, trimmed text. *)
Lemma admissible_stored (t : jsstring) :
  admissible t ->
  admissible (toWellFormed (trim t)) /\
  trim (toWellFormed (trim t)) = toWellFormed (trim t).
Proof.
  intros [Hne Hlen].
  assert (Hfix := toWellFormed_trimmed (trim t) (trim_idem t)).
  split; [|exact Hfix]. unfold admissible. rewrite Hfix, toWellFormed_length.
  split; [|exact Hlen].
  intros Hnil. apply (f_equal (@length N)) in Hnil.
  rewrite toWellFormed_length in Hnil.
  destruct (trim t); [congruence | discriminate].
Qed.

End StoredText.

(* ===================================================================== *)
(** ** The three ways a request to [POST /chat/message] ends *)
(* ===================================================================== *)

Section Outcomes.

Variables (env : LlmEnv) (rt : Runtime) (body : ChatRequestBody) (w : World).

(** The tables after a turn that went through. *)
Lemma turn_tables (msg reply : jsstring) (d : Db) :
  withMessage (afterUserTurn rt body msg d) (aiRow rt body reply d) =
  mkDb (conversations (afterResolve rt body d))
       (messages d ++ [userRow rt body msg d; aiRow rt body reply d])
       (sqlite_sequence d + 2).
Proof.
  unfold afterUserTurn, withMessage. cbn [conversations messages msg_id aiRow].
  now rewrite messages_afterResolve, <- app_assoc.
Qed.

(** A request is refused by the validation and changes nothing, or is
    stopped by the store at its first write and leaves the tables as they
    were, or goes through. *)
Lemma postChatMessage_cases :
  (status (fst (postChatMessage env rt body w)) = 400%Z /\
   snd (postChatMessage env rt body w) = w)
  \/
  (fst (postChatMessage env rt body w) =
     mkResponse 500 (ErrorJson MSG_CHAT_FAULT) /\
   db (snd (postChatMessage env rt body w)) = db w /\
   sessionResolves rt body (db w) = false)
  \/
  (exists t,
     message body = Some t /\ admissible t /\
     sessionResolves rt body (db w) = true /\
     postChatMessage env rt body w =
     let d := afterUserTurn rt body (trim t) (db w) in
     let history := historyHanded (resolvedSession rt body) d in
     let reply := generateReply env history (trim t) in
     (mkResponse 200 (ReplyJson reply (resolvedSession rt body)),
      mkWorld (withMessage d (aiRow rt body reply (db w)))
              (calls w ++ turnCalls rt body (trim t) history reply))).
Proof.
  unfold postChatMessage.
  destruct (message body) as [t|] eqn:Hm; [|left; split; reflexivity].
  destruct (falsy (trim t)) eqn:Hf; [left; split; reflexivity|].
  destruct (4000 <? length (trim t))%nat eqn:Hl; [left; split; reflexivity|].
  right.
  destruct (sessionResolves rt body (db w)) eqn:Hs.
  - right. exists t. split; [reflexivity|]. split; [|split; [reflexivity|]].
    + split; [intros Hnil; rewrite Hnil in Hf; discriminate|].
      now apply Nat.ltb_ge in Hl.
    + now apply turn_ok.
  - left. rewrite (turn_fault env rt body (trim t) w Hs).
    repeat split.
Qed.

End Outcomes.

(* ===================================================================== *)
(** ** What the tables keep over any sequence of requests *)
(* ===================================================================== *)

Section TableInvariants.

Lemma StronglySorted_snoc (l : list Z) (x : Z) :
  StronglySorted Z.lt l -> Forall (fun y => (y < x)%Z) l ->
  StronglySorted Z.lt (l ++ [x]).
Proof.
  induction 1 as [|y l Hs IH Hy]; intros Hx; simpl.
  - repeat constructor.
  - inversion Hx as [|? ? Hyx Hl]; subst.
    constructor; [now apply IH|].
    apply Forall_app. split; [exact Hy | now constructor].
Qed.

Lemma conversations_afterResolve (rt : Runtime) (body : ChatRequestBody)
  (d : Db) (cid : jsstring) :
  In cid (map id (conversations d)) ->
  In cid (map id (conversations (afterResolve rt body d))).
Proof.
  unfold afterResolve. destruct (suppliedSession body); [trivial|].
  intros H. cbn [withConversation conversations].
  rewrite map_app. apply in_or_app. now left.
Qed.

Lemma resolved_in_conversations (rt : Runtime) (body : ChatRequestBody)
  (d : Db) :
  sessionResolves rt body d = true ->
  In (resolvedSession rt body) (map id (conversations (afterResolve rt body d))).
Proof.
  intros Hok.
  destruct (getConversation_afterResolve rt body d Hok) as [conv Hconv].
  apply getConversation_some in Hconv as [Hin <-]. now apply in_map.
Qed.

Lemma primary_key_afterResolve (rt : Runtime) (body : ChatRequestBody)
  (d : Db) :
  sessionResolves rt body d = true ->
  NoDup (map id (conversations d)) ->
  NoDup (map id (conversations (afterResolve rt body d))).
Proof.
  unfold sessionResolves, afterResolve.
  destruct (suppliedSession body) as [sid|]; [trivial|].
  unfold primary_key_free. intros Hfree Hnd.
  destruct (getConversation (uuid rt) d) eqn:Hg; [discriminate|].
  apply getConversation_none in Hg.
  cbn [withConversation conversations]. rewrite map_app. simpl.
  apply NoDup_app; [exact Hnd | |].
  - repeat constructor. intros [].
  - intros a Ha [<-|[]]. contradiction.
Qed.

(** One turn that goes through keeps the tables well formed. *)
Lemma wellFormed_turn (rt : Runtime) (body : ChatRequestBody)
  (msg reply : jsstring) (d : Db) :
  sessionResolves rt body d = true ->
  wellFormed d ->
  wellFormed (withMessage (afterUserTurn rt body msg d) (aiRow rt body reply d)).
Proof.
  intros Hok [Hpk Hfk Hids Hseq]. rewrite turn_tables.
  constructor; cbn [conversations messages sqlite_sequence].
  - now apply primary_key_afterResolve.
  - apply Forall_app. split.
    + eapply Forall_impl; [|exact Hfk].
      intros m. apply conversations_afterResolve.
    + repeat constructor; simpl; now apply resolved_in_conversations.
  - rewrite map_app. simpl.
    change [(sqlite_sequence d + 1)%Z; (sqlite_sequence d + 2)%Z]
      with ([(sqlite_sequence d + 1)%Z] ++ [(sqlite_sequence d + 2)%Z]).
    rewrite app_assoc.
    assert (Hlt : Forall (fun y => (y < sqlite_sequence d + 1)%Z)
                         (map msg_id (messages d))).
    { apply Forall_forall. intros y Hy. apply in_map_iff in Hy as (m & <- & Hm).
      rewrite Forall_forall in Hseq. specialize (Hseq m Hm). lia. }
    apply StronglySorted_snoc.
    + now apply StronglySorted_snoc.
    + apply Forall_app. split.
      * eapply Forall_impl; [|exact Hlt]. simpl. intros; lia.
      * repeat constructor. lia.
  - apply Forall_app. split.
    + eapply Forall_impl; [|exact Hseq]. simpl. intros; lia.
    + repeat constructor; simpl; lia.
Qed.

Lemma postChatMessage_wellFormed (env : LlmEnv) (rt : Runtime)
  (body : ChatRequestBody) (w : World) :
  wellFormed (db w) ->
  wellFormed (db (snd (postChatMessage env rt body w))).
Proof.
  intros Hwf.
  destruct (postChatMessage_cases env rt body w)
    as [[_ ->] | [(_ & -> & _) | (t & _ & _ & Hok & ->)]]; trivial.
  cbv zeta. cbn [snd db]. now apply wellFormed_turn.
Qed.

Lemma serve_wellFormed (r : Request) (w : World) :
  wellFormed (db w) -> wellFormed (db (snd (serve r w))).
Proof.
  destruct r as [env rt body | sid]; simpl.
  - apply postChatMessage_wellFormed.
  - unfold getChatHistory. now destruct (getConversation sid (db w)).
Qed.

(** X1: However many requests are served, and whatever their outcome, the
    tables keep what the schema declares: conversation ids stay unique,
    every message row references a conversation row, and message ids grow
    with the rows and stay within the counter. *)
Theorem serveAll_wellFormed (rs : list Request) (w : World) :
  wellFormed (db w) -> wellFormed (db (serveAll rs w)).
Proof.
  revert w. induction rs as [|r rs IH]; intros w Hwf; simpl; [exact Hwf|].
  apply IH. now apply serve_wellFormed.
Qed.

End TableInvariants.

Section TurnInvariants.

(** What every turn that goes through keeps, every sequence of requests
    keeps. *)
Lemma serveAll_invariant (P : Db -> Prop) :
  (forall rt body t reply d,
     message body = Some t -> admissible t ->
     sessionResolves rt body d = true ->
     P d ->
     P (withMessage (afterUserTurn rt body (trim t) d) (aiRow rt body reply d))) ->
  forall rs w, P (db w) -> P (db (serveAll rs w)).
Proof.
  intros Hturn rs. induction rs as [|r rs IH]; intros w HP; simpl; [exact HP|].
  apply IH. destruct r as [env rt body | sid]; simpl.
  - destruct (postChatMessage_cases env rt body w)
      as [[_ ->] | [(_ & -> & _) | (t & Hm & Hadm & Hok & ->)]]; trivial.
    cbv zeta. cbn [snd db]. now apply Hturn with (t := t).
  - unfold getChatHistory. now destruct (getConversation sid (db w)).
Qed.

Lemma rowsOf_turn (rt : Runtime) (body : ChatRequestBody)
  (msg reply sid : jsstring) (d : Db) :
  rowsOf sid (withMessage (afterUserTurn rt body msg d) (aiRow rt body reply d)) =
  rowsOf sid d ++
  (if eqb (resolvedSession rt body) sid
   then [userRow rt body msg d; aiRow rt body reply d] else []).
Proof.
  rewrite turn_tables. unfold rowsOf. cbn [messages].
  rewrite filter_app. f_equal. simpl.
  now destruct (eqb (resolvedSession rt body) sid).
Qed.

(** X3: Every stored row is a [user] row whose text is not empty, at most 4000
    code units long and free of white space at both ends, or an [ai] row. *)
Theorem serveAll_rows_checked (rs : list Request) (w : World) :
  Forall rowChecked (messages (db w)) ->
  Forall rowChecked (messages (db (serveAll rs w))).
Proof.
  revert rs w.
  apply (serveAll_invariant (fun d => Forall rowChecked (messages d))).
  intros rt body t reply d _ Hadm _ Hrows.
  rewrite turn_tables. cbn [messages]. apply Forall_app. split; [exact Hrows|].
  constructor; [|constructor; [|constructor]].
  - left. split; [reflexivity|]. now apply admissible_stored.
  - right. reflexivity.
Qed.

End TurnInvariants.

Lemma serveAll_wellFormed_witness :
  wellFormed (db Scenario.fresh) /\
  wellFormed
    (db (serveAll
           [PostChatMessage Scenario.env_ok (Scenario.rt_k 1) (Scenario.body_k 1);
            GetChatHistory Scenario.sid1;
            PostChatMessage Scenario.env_no_key (Scenario.rt_k 2)
              (mkChatRequestBody (Some (lit "x")) (Some (lit "nobody")))]
           Scenario.fresh)).
Proof.
  assert (H : wellFormed (db Scenario.fresh)).
  { constructor; simpl; constructor. }
  split; [exact H|]. apply serveAll_wellFormed. exact H.
Defined.

Lemma serveAll_rows_checked_witness :
  Forall rowChecked (messages (db Scenario.fresh)) /\
  Forall rowChecked
    (messages
       (db (serveAll
              [PostChatMessage Scenario.env_ok (Scenario.rt_k 1)
                 (mkChatRequestBody (Some (lit "  hi  ")) None)]
              Scenario.fresh))).
Proof.
  assert (H : Forall rowChecked (messages (db Scenario.fresh)))
    by (simpl; constructor).
  split; [exact H|]. apply serveAll_rows_checked. exact H.
Defined.

(* ===================================================================== *)
(** ** What one request does to the tables *)
(* ===================================================================== *)

Section RequestEffects.

Variables (env : LlmEnv) (rt : Runtime).

Lemma find_snoc_other {A : Type} (f : A -> bool) (l : list A) (c : A) :
  f c = false -> find f (l ++ [c]) = find f l.
Proof.
  intros Hc. induction l as [|a l IH]; simpl; [now rewrite Hc|].
  now destruct (f a).
Qed.

Lemma eqb_neq (s t : jsstring) : s <> t -> eqb s t = false.
Proof.
  intros H. destruct (eqb s t) eqn:E; [|reflexivity].
  now apply eqb_eq in E.
Qed.

Lemma getConversation_afterResolve_other (body : ChatRequestBody) (d : Db)
  (sid' : jsstring) :
  sid' <> resolvedSession rt body ->
  getConversation sid' (afterResolve rt body d) = getConversation sid' d.
Proof.
  unfold resolvedSession, afterResolve.
  destruct (suppliedSession body); [reflexivity|]. intros Hne.
  unfold getConversation, withConversation. cbn [conversations].
  apply find_snoc_other. simpl. apply eqb_neq. congruence.
Qed.

(** X5: A request leaves every other conversation alone: the history lookup of
    any identifier but the one the request writes to answers the same before
    and after, whatever the outcome of the request. *)
Theorem other_conversations_untouched (body : ChatRequestBody) (w : World)
  (sid' : jsstring) :
  sid' <> resolvedSession rt body ->
  fst (getChatHistory sid' (snd (postChatMessage env rt body w))) =
  fst (getChatHistory sid' w).
Proof.
  intros Hne.
  destruct (postChatMessage_cases env rt body w)
    as [[_ ->] | [(_ & Hdb & _) | (t & _ & _ & Hok & ->)]].
  - reflexivity.
  - unfold getChatHistory. rewrite Hdb.
    now destruct (getConversation sid' (db w)).
  - cbv zeta. cbn [snd]. unfold getChatHistory. cbn [db].
    unfold selectMessages, messagesOf.
    fold (rowsOf sid' (db w)).
    match goal with
    | |- context [filter _ (messages ?d')] => fold (rowsOf sid' d')
    end.
    rewrite rowsOf_turn, (eqb_neq _ _ (not_eq_sym Hne)), app_nil_r.
    unfold afterUserTurn. rewrite !getConversation_withMessage.
    rewrite (getConversation_afterResolve_other body (db w) sid' Hne).
    now destruct (getConversation sid' (db w)).
Qed.

(** X6: A request that is answered with a session identifier either was sent
    with that identifier and adds no conversation, or was sent without one
    and adds exactly one conversation: the fresh identifier, unused before,
    created at the time of the request. *)
Theorem session_reused_or_created (body : ChatRequestBody) (w w' : World)
  (reply sid : jsstring) :
  postChatMessage env rt body w = (mkResponse 200 (ReplyJson reply sid), w') ->
  (suppliedSession body = Some sid /\
   conversations (db w') = conversations (db w))
  \/
  (suppliedSession body = None /\ sid = uuid rt /\
   ~ In sid (map id (conversations (db w))) /\
   conversations (db w') =
     conversations (db w) ++ [mkConversation sid (now rt)]).
Proof.
  intros H.
  destruct (postChatMessage_cases env rt body w)
    as [[H400 _] | [(H500 & _) | (t & _ & _ & Hok & Hpost)]].
  - rewrite H in H400. discriminate.
  - rewrite H in H500. discriminate.
  - rewrite Hpost in H. cbv zeta in H. injection H as _ Hsid Hw. subst w'.
    cbn [db]. rewrite turn_tables. cbn [conversations].
    revert Hsid Hok. unfold resolvedSession, sessionResolves, afterResolve.
    destruct (suppliedSession body) as [s|]; intros <- Hok.
    + left. split; reflexivity.
    + right. split; [reflexivity|]. split; [reflexivity|]. split; [|reflexivity].
      unfold primary_key_free in Hok.
      destruct (getConversation (uuid rt) (db w)) eqn:Hg; [discriminate|].
      now apply getConversation_none.
Qed.

End RequestEffects.

Lemma other_conversations_untouched_witness :
  Scenario.sid1 <> resolvedSession (Scenario.rt_k 2)
                     (mkChatRequestBody (Some (lit "x")) (Some (lit "other"))) /\
  fst (getChatHistory Scenario.sid1
         (snd (postChatMessage Scenario.env_ok (Scenario.rt_k 2)
                 (mkChatRequestBody (Some (lit "x")) (Some (lit "other")))
                 (Scenario.exchanges Scenario.env_ok 1)))) =
  fst (getChatHistory Scenario.sid1 (Scenario.exchanges Scenario.env_ok 1)).
Proof.
  assert (H : Scenario.sid1 <>
              resolvedSession (Scenario.rt_k 2)
                (mkChatRequestBody (Some (lit "x")) (Some (lit "other"))))
    by (vm_compute; discriminate).
  split; [exact H|].
  exact (other_conversations_untouched Scenario.env_ok (Scenario.rt_k 2)
           (mkChatRequestBody (Some (lit "x")) (Some (lit "other")))
           (Scenario.exchanges Scenario.env_ok 1) Scenario.sid1 H).
Defined.

Lemma session_reused_or_created_witness :
  exists w',
    postChatMessage Scenario.env_ok (Scenario.rt_k 1) (Scenario.body_k 1)
      Scenario.fresh =
    (mkResponse 200 (ReplyJson (lit "ok") Scenario.sid1), w') /\
    conversations (db w') = [mkConversation Scenario.sid1 1].
Proof.
  eexists. split; [vm_compute; reflexivity|].
  destruct (session_reused_or_created Scenario.env_ok (Scenario.rt_k 1)
              (Scenario.body_k 1) Scenario.fresh _ (lit "ok") Scenario.sid1
              eq_refl) as [[Hs _] | (_ & _ & _ & Hc)].
  - discriminate Hs.
  - exact Hc.
Defined.

(* ===================================================================== *)
(** ** The history after a turn *)
(* ===================================================================== *)

Section HistoryGrowth.

Variables (env : LlmEnv) (rt : Runtime).

Lemma insertByCreatedAt_snoc (m x : Message) (l : list Message) :
  created_le m x ->
  insertByCreatedAt m (l ++ [x]) = insertByCreatedAt m l ++ [x].
Proof.
  unfold created_le. intros Hmx. induction l as [|m' l IH]; simpl.
  - apply Z.leb_le in Hmx. now rewrite Hmx.
  - destruct (created_at m <=? created_at m')%Z; [reflexivity|].
    now rewrite IH.
Qed.

(** A row not earlier than any other sorts last. *)
Lemma orderByCreatedAt_snoc (l : list Message) (x : Message) :
  Forall (fun m => created_le m x) l ->
  orderByCreatedAt (l ++ [x]) = orderByCreatedAt l ++ [x].
Proof.
  induction 1 as [|m l Hm Hl IH]; simpl; [reflexivity|].
  rewrite IH. now apply insertByCreatedAt_snoc.
Qed.

(** The rows of the session after a turn that was answered with a reply. *)
Lemma rowsOf_after_reply (t : jsstring) (sess : option jsstring)
  (w w' : World) (reply sid : jsstring) :
  postChatMessage env rt (mkChatRequestBody (Some t) sess) w =
    (mkResponse 200 (ReplyJson reply sid), w') ->
  exists u a,
    rowsOf sid (db w') = rowsOf sid (db w) ++ [u; a] /\
    (sender u, text u, created_at u) =
      (lit "user", toWellFormed (trim t), now rt) /\
    (sender a, text a, created_at a) =
      (lit "ai", toWellFormed reply, now_reply rt).
Proof.
  intros H.
  destruct (postChatMessage_reply_inv env rt t sess w w' reply sid H)
    as [Hadm Hok].
  rewrite (postChatMessage_ok env rt t sess w Hadm Hok) in H. cbv zeta in H.
  injection H as Hreply Hsid Hw. subst w' sid.
  set (body := mkChatRequestBody (Some t) sess) in *.
  exists (userRow rt body (trim t) (db w)), (aiRow rt body reply (db w)).
  cbn [db]. rewrite rowsOf_turn, eqb_refl, <- Hreply.
  repeat split.
Qed.

(** X7: Whatever the clock does, the history of the session after a turn is the
    history before it and the two entries of the turn, and nothing else;
    the entries hold the trimmed message and the reply as the table keeps
    them, every unpaired surrogate replaced by U+FFFD. *)
Theorem history_grows_by_turn (t : jsstring) (sess : option jsstring)
  (w w' : World) (reply sid : jsstring) :
  postChatMessage env rt (mkChatRequestBody (Some t) sess) w =
    (mkResponse 200 (ReplyJson reply sid), w') ->
  Permutation
    (selectMessages sid (db w'))
    (selectMessages sid (db w) ++
     [(lit "user", toWellFormed (trim t), now rt);
      (lit "ai", toWellFormed reply, now_reply rt)])
  /\ length (selectMessages sid (db w')) =
     (length (selectMessages sid (db w)) + 2)%nat.
Proof.
  intros H.
  destruct (rowsOf_after_reply t sess w w' reply sid H)
    as (u & a & Hrows & Hu & Ha).
  assert (Hperm :
    Permutation
      (selectMessages sid (db w'))
      (selectMessages sid (db w) ++
       [(lit "user", toWellFormed (trim t), now rt);
        (lit "ai", toWellFormed reply, now_reply rt)])).
  { unfold selectMessages, messagesOf.
    fold (rowsOf sid (db w')). fold (rowsOf sid (db w)).
    rewrite Hrows, <- Hu, <- Ha.
    change [(sender u, text u, created_at u); (sender a, text a, created_at a)]
      with (map (fun m => (sender m, text m, created_at m)) [u; a]).
    rewrite <- map_app. apply Permutation_map.
    rewrite <- orderByCreatedAt_perm.
    apply Permutation_app_tail, orderByCreatedAt_perm. }
  split; [exact Hperm|].
  rewrite (Permutation_length Hperm), length_app. reflexivity.
Qed.

(** X8: When no row of the session is later than the request and the clock
    does not run backwards during the turn, the history after the turn is
    the history before it followed by the user entry and then the assistant
    entry, their texts as the table keeps them. *)
Theorem history_extended_in_order (t : jsstring) (sess : option jsstring)
  (w w' : World) (reply sid : jsstring) :
  postChatMessage env rt (mkChatRequestBody (Some t) sess) w =
    (mkResponse 200 (ReplyJson reply sid), w') ->
  Forall (fun m => (created_at m <= now rt)%Z) (rowsOf sid (db w)) ->
  (now rt <= now_reply rt)%Z ->
  selectMessages sid (db w') =
  selectMessages sid (db w) ++
  [(lit "user", toWellFormed (trim t), now rt);
   (lit "ai", toWellFormed reply, now_reply rt)].
Proof.
  intros H Hold Hclock.
  destruct (rowsOf_after_reply t sess w w' reply sid H)
    as (u & a & Hrows & Hu & Ha).
  injection Hu as Hus Hut Huc. injection Ha as Has Hat Hac.
  unfold selectMessages, messagesOf.
  fold (rowsOf sid (db w')). fold (rowsOf sid (db w)).
  rewrite Hrows.
  change (rowsOf sid (db w) ++ [u; a])
    with (rowsOf sid (db w) ++ [u] ++ [a]).
  rewrite app_assoc, orderByCreatedAt_snoc.
  - rewrite orderByCreatedAt_snoc.
    + rewrite <- app_assoc, map_app. simpl.
      now rewrite Hus, Hut, Huc, Has, Hat, Hac.
    + eapply Forall_impl; [|exact Hold].
      unfold created_le. intros m Hm. now rewrite Huc.
  - apply Forall_app. split.
    + eapply Forall_impl; [|exact Hold].
      unfold created_le. intros m Hm. rewrite Hac. lia.
    + repeat constructor. unfold created_le. rewrite Huc, Hac. exact Hclock.
Qed.

End HistoryGrowth.

Lemma history_grows_by_turn_witness :
  exists w',
    postChatMessage Scenario.env_ok (Scenario.rt_k 2) (Scenario.body_k 2)
      (Scenario.exchanges Scenario.env_ok 1) =
    (mkResponse 200 (ReplyJson (lit "ok") Scenario.sid1), w') /\
    length (selectMessages Scenario.sid1 (db w')) = 4%nat.
Proof.
  pose (r := postChatMessage Scenario.env_ok (Scenario.rt_k 2)
              (Scenario.body_k 2) (Scenario.exchanges Scenario.env_ok 1)).
  assert (H : postChatMessage Scenario.env_ok (Scenario.rt_k 2)
                (mkChatRequestBody (Some (Scenario.letter 2))
                                   (Some Scenario.sid1))
                (Scenario.exchanges Scenario.env_ok 1) =
              (mkResponse 200 (ReplyJson (lit "ok") Scenario.sid1), snd r))
    by (vm_compute; reflexivity).
  exists (snd r). split; [exact H|].
  rewrite (proj2 (history_grows_by_turn Scenario.env_ok (Scenario.rt_k 2)
                    (Scenario.letter 2) (Some Scenario.sid1)
                    (Scenario.exchanges Scenario.env_ok 1) (snd r)
                    (lit "ok") Scenario.sid1 H)).
  vm_compute. reflexivity.
Defined.

Lemma history_extended_in_order_witness :
  exists w',
    postChatMessage Scenario.env_ok (Scenario.rt_k 2) (Scenario.body_k 2)
      (Scenario.exchanges Scenario.env_ok 1) =
    (mkResponse 200 (ReplyJson (lit "ok") Scenario.sid1), w') /\
    Forall (fun m => (created_at m <= now (Scenario.rt_k 2))%Z)
           (rowsOf Scenario.sid1 (db (Scenario.exchanges Scenario.env_ok 1))) /\
    (now (Scenario.rt_k 2) <= now_reply (Scenario.rt_k 2))%Z /\
    selectMessages Scenario.sid1 (db w') =
    [(lit "user", lit "A", 1%Z); (lit "ai", lit "ok", 2%Z);
     (lit "user", lit "B", 3%Z); (lit "ai", lit "ok", 4%Z)].
Proof.
  assert (Hold : Forall (fun m => (created_at m <= now (Scenario.rt_k 2))%Z)
                   (rowsOf Scenario.sid1
                      (db (Scenario.exchanges Scenario.env_ok 1)))).
  { vm_compute. repeat constructor; discriminate. }
  assert (Hclock : (now (Scenario.rt_k 2) <= now_reply (Scenario.rt_k 2))%Z)
    by (vm_compute; discriminate).
  pose (r := postChatMessage Scenario.env_ok (Scenario.rt_k 2)
              (Scenario.body_k 2) (Scenario.exchanges Scenario.env_ok 1)).
  assert (H : postChatMessage Scenario.env_ok (Scenario.rt_k 2)
                (mkChatRequestBody (Some (Scenario.letter 2))
                                   (Some Scenario.sid1))
                (Scenario.exchanges Scenario.env_ok 1) =
              (mkResponse 200 (ReplyJson (lit "ok") Scenario.sid1), snd r))
    by (vm_compute; reflexivity).
  exists (snd r). split; [exact H|].
  split; [exact Hold|]. split; [exact Hclock|].
  rewrite (history_extended_in_order Scenario.env_ok (Scenario.rt_k 2)
             (Scenario.letter 2) (Some Scenario.sid1)
             (Scenario.exchanges Scenario.env_ok 1) (snd r)
             (lit "ok") Scenario.sid1 H Hold Hclock).
  vm_compute. reflexivity.
Defined.

(* ===================================================================== *)
(** ** The request [generateReply] sends *)
(* ===================================================================== *)

Section ProviderRequest.

(** X9: The request to the provider is bounded whatever the caller passes:
    its messages are the system prompt, then the last ten entries of the
    history (all of them when there are fewer), each with its role and
    content, then one user message holding the first 1000 code units of the
    text (the whole text when it is no longer than that); twelve messages at
    most, for the model [gpt-4o-mini] with at most 200 tokens. *)
Theorem request_bounded (history : list ChatMessage) (userMessage : jsstring) :
  exists older recent,
    history = older ++ recent /\
    length recent = Nat.min 10 (length history) /\
    api_messages (createParams history userMessage) =
      mkApiMessage api_system SYSTEM_PROMPT
      :: map apiMessage recent
      ++ [mkApiMessage api_user (firstn 1000 userMessage)] /\
    (length (api_messages (createParams history userMessage)) <= 12)%nat /\
    ((length userMessage <= 1000)%nat ->
     firstn 1000 userMessage = userMessage) /\
    ((1000 < length userMessage)%nat ->
     length (firstn 1000 userMessage) = 1000%nat) /\
    model (createParams history userMessage) = lit "gpt-4o-mini" /\
    max_tokens (createParams history userMessage) = 200%Z.
Proof.
  exists (firstn (length history - 10) history),
         (skipn (length history - 10) history).
  assert (Hlen : length (skipn (length history - 10) history)
                 = Nat.min 10 (length history))
    by (rewrite length_skipn; lia).
  assert (Hcut : truncatedUserMessage userMessage = firstn 1000 userMessage).
  { unfold truncatedUserMessage, slice_first.
    destruct (1000 <? length userMessage)%nat eqn:Hl; [reflexivity|].
    apply Nat.ltb_ge in Hl. now rewrite firstn_all2. }
  split; [now rewrite firstn_skipn|]. split; [exact Hlen|].
  split; [|split; [|split; [|split; [|split]]]].
  - cbn [createParams api_messages]. unfold requestMessages, contextWindow,
      slice_last. now rewrite Hcut.
  - cbn [createParams api_messages]. unfold requestMessages, contextWindow,
      slice_last. cbn [length]. rewrite length_app, length_map, Hlen.
    cbn [length]. lia.
  - intros Hshort. now apply firstn_all2.
  - intros Hlong. apply firstn_length_le. lia.
  - reflexivity.
  - reflexivity.
Qed.

Lemma contextWindow_app (older recent : list ChatMessage) :
  (10 <= length recent)%nat ->
  contextWindow (older ++ recent) = contextWindow recent.
Proof.
  intros Hlen. unfold contextWindow, slice_last.
  rewrite length_app, skipn_app.
  rewrite skipn_all2 by lia. simpl. f_equal. lia.
Qed.

(** X10: The reply depends on the ten latest entries of the history only:
    anything older the caller passes never reaches the provider. *)
Theorem generateReply_last_ten (env : LlmEnv) (older recent : list ChatMessage)
  (userMessage : jsstring) :
  (10 <= length recent)%nat ->
  generateReply env (older ++ recent) userMessage =
  generateReply env recent userMessage.
Proof.
  intros Hlen. unfold generateReply, tryCreate, createParams, requestMessages.
  now rewrite (contextWindow_app older recent Hlen).
Qed.

End ProviderRequest.

Lemma generateReply_last_ten_witness :
  (10 <= length (repeat Scenario.ok 10))%nat /\
  generateReply Scenario.env_ok ([Scenario.turn 1] ++ repeat Scenario.ok 10)
    (lit "hi") =
  generateReply Scenario.env_ok (repeat Scenario.ok 10) (lit "hi").
Proof.
  assert (H : (10 <= length (repeat Scenario.ok 10))%nat)
    by (apply Nat.leb_le; reflexivity).
  split; [exact H|].
  exact (generateReply_last_ten Scenario.env_ok [Scenario.turn 1]
           (repeat Scenario.ok 10) (lit "hi") H).
Defined.

(* ===================================================================== *)
(** ** The widget and the server *)
(* ===================================================================== *)

Section WidgetSend.

Variables (env : LlmEnv) (rt : Runtime).

Lemma handleSend_some (st st1 : Widget.State) (body : ChatRequestBody) :
  Widget.handleSend st = Some (st1, body) ->
  trim (Widget.input st) <> [] /\
  Widget.isSending st = false /\
  body = mkChatRequestBody (Some (trim (Widget.input st))) (Widget.sessionId st) /\
  st1 = Widget.mkState (Widget.sessionId st)
          (Widget.messages st ++
           [Widget.mkUiMessage (lit "user") (trim (Widget.input st)) None])
          [] true None (Widget.chatSessions st) (Widget.showHistory st)
          (Widget.storedSessionId st) (Widget.storedChatHistory st).
Proof.
  unfold Widget.handleSend.
  destruct (falsy (trim (Widget.input st))) eqn:Hf; [discriminate|].
  destruct (Widget.isSending st); [discriminate|]. simpl.
  intros H. injection H as <- <-.
  repeat split. intros Hnil. rewrite Hnil in Hf. discriminate.
Qed.


(** X14: When the post is answered with a reply, the two messages the
    widget has added to its list are the two rows the server has stored:
    same senders, and the stored texts are the texts the widget shows as the
    table keeps them (every unpaired surrogate replaced by U+FFFD, so the
    same texts when they are well formed); the widget is ready for the next
    message, and it holds the session the rows were written under. *)
Theorem widget_shows_what_is_stored (st st1 : Widget.State)
  (body : ChatRequestBody) (w w' : World) (reply sid : jsstring) :
  Widget.handleSend st = Some (st1, body) ->
  postChatMessage env rt body w = (mkResponse 200 (ReplyJson reply sid), w') ->
  let st2 := Widget.handleSendReplied (Widget.sessionId st) reply sid st1 in
  exists u a mu ma,
    messages (db w') = messages (db w) ++ [u; a] /\
    conversation_id u = sid /\ conversation_id a = sid /\
    Widget.messages st2 = Widget.messages st ++ [mu; ma] /\
    Widget.text mu = trim (Widget.input st) /\ Widget.text ma = reply /\
    sender u = Widget.sender mu /\ sender a = Widget.sender ma /\
    text u = toWellFormed (Widget.text mu) /\
    text a = toWellFormed (Widget.text ma) /\
    (isWellFormed (Widget.text mu) = true -> text u = Widget.text mu) /\
    (isWellFormed (Widget.text ma) = true -> text a = Widget.text ma) /\
    Widget.isSending st2 = false /\
    (sid <> [] -> Widget.sessionId st2 = Some sid).
Proof.
  intros Hsend Hpost st2.
  apply handleSend_some in Hsend as (Hne & _ & -> & ->).
  set (t := trim (Widget.input st)) in *.
  destruct (postChatMessage_reply_inv env rt t (Widget.sessionId st)
              w w' reply sid Hpost) as [Hadm Hok].
  rewrite (postChatMessage_ok env rt t (Widget.sessionId st) w Hadm Hok)
    in Hpost.
  cbv zeta in Hpost. injection Hpost as Hreply Hsid Hw.
  set (body := mkChatRequestBody (Some t) (Widget.sessionId st)) in *.
  exists (userRow rt body (trim t) (db w)), (aiRow rt body reply (db w)),
         (Widget.mkUiMessage (lit "user") t None),
         (Widget.mkUiMessage (lit "ai") reply None).
  subst w'. cbn [db]. rewrite turn_tables. cbn [messages].
  split; [now rewrite Hreply|]. split; [exact Hsid|]. split; [exact Hsid|].
  subst st2. unfold Widget.handleSendReplied.
  cbn [Widget.messages Widget.isSending Widget.sessionId Widget.text
       Widget.sender userRow aiRow text sender].
  assert (Ht : trim t = t) by (unfold t; apply trim_idem).
  rewrite Ht.
  split; [now rewrite <- app_assoc|].
  split; [reflexivity|]. split; [reflexivity|].
  split; [reflexivity|]. split; [reflexivity|].
  split; [reflexivity|]. split; [reflexivity|].
  split; [apply toWellFormed_fixed|]. split; [apply toWellFormed_fixed|].
  split; [reflexivity|].
  intros Hsidne. revert Hsid.
  unfold resolvedSession, suppliedSession, body, Widget.noSession.
  cbn [sessionId].
  destruct (Widget.sessionId st) as [s|]; [destruct (falsy s) eqn:Hs|];
    intros Hsid.
  - destruct sid; [congruence | reflexivity].
  - simpl. now rewrite Hsid.
  - destruct sid; [congruence | reflexivity].
Qed.

End WidgetSend.


Lemma widget_shows_what_is_stored_witness :
  exists st1 body w',
    Widget.handleSend (Widget.setInput (lit " hi ") Widget.initial) =
      Some (st1, body) /\
    postChatMessage Scenario.env_ok (Scenario.rt_k 1) body Scenario.fresh =
      (mkResponse 200 (ReplyJson (lit "ok") Scenario.sid1), w') /\
    map Widget.text
        (Widget.messages
           (Widget.handleSendReplied None (lit "ok") Scenario.sid1 st1)) =
      map text (messages (db w')) /\
    Widget.sessionId
      (Widget.handleSendReplied None (lit "ok") Scenario.sid1 st1) =
      Some Scenario.sid1.
Proof.
  pose (st := Widget.setInput (lit " hi ") Widget.initial).
  pose (st1 := Widget.mkState None
                 [Widget.mkUiMessage (lit "user") (lit "hi") None]
                 [] true None [] false None None).
  pose (body := mkChatRequestBody (Some (lit "hi")) None).
  pose (r := postChatMessage Scenario.env_ok (Scenario.rt_k 1) body
               Scenario.fresh).
  assert (Hsend : Widget.handleSend st = Some (st1, body))
    by (vm_compute; reflexivity).
  assert (Hpost : postChatMessage Scenario.env_ok (Scenario.rt_k 1) body
                    Scenario.fresh =
                  (mkResponse 200 (ReplyJson (lit "ok") Scenario.sid1), snd r))
    by (vm_compute; reflexivity).
  exists st1, body, (snd r).
  split; [exact Hsend|]. split; [exact Hpost|].
  destruct (widget_shows_what_is_stored Scenario.env_ok (Scenario.rt_k 1)
              st st1 body Scenario.fresh (snd r) (lit "ok") Scenario.sid1
              Hsend Hpost)
    as (u & a & mu & ma & Hrows & _ & _ & Hui & Hmu & Hma & _ & _ & _ & _
        & Hwu & Hwa & _ & Hsid).
  split.
  - change (Widget.sessionId st) with (@None jsstring) in Hui.
    rewrite Hui, Hrows. simpl.
    rewrite Hwu by (rewrite Hmu; vm_compute; reflexivity).
    rewrite Hwa by (rewrite Hma; vm_compute; reflexivity).
    reflexivity.
  - apply Hsid. vm_compute. discriminate.
Defined.

(* ===================================================================== *)
(** ** The list of past chats *)
(* ===================================================================== *)

Section PastChats.

Lemma NoDup_firstn {A : Type} (n : nat) (l : list A) :
  NoDup l -> NoDup (firstn n l).
Proof.
  intros H. rewrite <- (firstn_skipn n l) in H.
  now apply NoDup_app_remove_r in H.
Qed.

Lemma In_firstn {A : Type} (n : nat) (l : list A) (x : A) :
  In x (firstn n l) -> In x l.
Proof.
  intros H. rewrite <- (firstn_skipn n l). apply in_or_app. now left.
Qed.

Lemma filter_other_ids (k : jsstring) (l : list Widget.ChatSession) :
  ~ In k (map Widget.id (filter (fun s => negb (eqb (Widget.id s) k)) l)).
Proof.
  intros H. apply in_map_iff in H as (s & Hs & Hin).
  apply filter_In in Hin as [_ Hf]. rewrite Hs, eqb_refl in Hf. discriminate.
Qed.

Lemma NoDup_filter_ids (f : Widget.ChatSession -> bool)
  (l : list Widget.ChatSession) :
  NoDup (map Widget.id l) -> NoDup (map Widget.id (filter f l)).
Proof.
  induction l as [|s l IH]; simpl; [trivial|].
  intros H. inversion H as [|? ? Hnin Hnd]; subst.
  destruct (f s); simpl; [|now apply IH].
  constructor; [|now apply IH].
  intros Hin. apply Hnin. apply in_map_iff in Hin as (s' & Hs' & Hin').
  apply filter_In in Hin' as [Hin' _]. rewrite <- Hs'. now apply in_map.
Qed.

Lemma filter_length_le {A : Type} (f : A -> bool) (l : list A) :
  (length (filter f l) <= length l)%nat.
Proof.
  induction l as [|a l IH]; simpl; [lia|]. destruct (f a); simpl; lia.
Qed.

(** X15: Starting a new chat resets the widget (no session, no messages, no
    stored session id, no error, the list closed) and leaves the input
    alone. On a chat without messages the list of past chats and its copy in
    [localStorage] stay as they are. On a chat with messages the list
    becomes: the chat just left, under its session id (a fresh one when it
    had none), previewed by its first message or by [New Chat], stamped with
    the time; then the first four of the old entries that have another id,
    in their old order; that is five entries at most, none of the others
    with the id of the first, and the copy in [localStorage] is the new
    list. A list without repeated ids stays without. *)
Theorem startNewChat_list (uuid : jsstring) (now : Z) (st : Widget.State) :
  let st' := Widget.startNewChat uuid now st in
  let sid := if Widget.noSession (Widget.sessionId st) then uuid
             else match Widget.sessionId st with
                  | Some s => s
                  | None => uuid
                  end in
  let others :=
    filter (fun s => negb (eqb (Widget.id s) sid)) (Widget.chatSessions st) in
  Widget.sessionId st' = None /\ Widget.messages st' = [] /\
  Widget.storedSessionId st' = None /\ Widget.error st' = None /\
  Widget.showHistory st' = false /\
  Widget.input st' = Widget.input st /\
  (Widget.messages st = [] ->
   Widget.chatSessions st' = Widget.chatSessions st /\
   Widget.storedChatHistory st' = Widget.storedChatHistory st) /\
  (forall m ms,
     Widget.messages st = m :: ms ->
     Widget.chatSessions st' =
       Widget.mkChatSession sid
         (if falsy (Widget.text m) then lit "New Chat" else Widget.text m)
         now
       :: firstn 4 others /\
     Widget.storedChatHistory st' = Some (Widget.chatSessions st') /\
     (length (Widget.chatSessions st') <= 5)%nat /\
     length (Widget.chatSessions st') = S (Nat.min 4 (length others)) /\
     ~ In sid (map Widget.id (firstn 4 others)) /\
     (forall s, In s (Widget.chatSessions st) -> Widget.id s <> sid ->
                In s others)) /\
  (NoDup (map Widget.id (Widget.chatSessions st)) ->
   NoDup (map Widget.id (Widget.chatSessions st'))).
Proof.
  intros st' sid others. subst st'. unfold Widget.startNewChat.
  assert (Hsid : match Widget.sessionId st with
                 | Some s => if falsy s then uuid else s
                 | None => uuid
                 end = sid).
  { unfold sid, Widget.noSession.
    destruct (Widget.sessionId st) as [s|]; [|reflexivity].
    now destruct (falsy s). }
  rewrite Hsid.
  cbn [Widget.chatSessions Widget.sessionId Widget.messages Widget.error
       Widget.showHistory Widget.input Widget.storedSessionId
       Widget.storedChatHistory Widget.id].
  fold others.
  split; [reflexivity|]. split; [reflexivity|]. split; [reflexivity|].
  split; [reflexivity|]. split; [reflexivity|]. split; [reflexivity|].
  split; [|split].
  - intros ->. split; reflexivity.
  - intros m ms ->. unfold slice_first.
    match goal with
    | |- context [firstn 5 (?a :: ?l)] =>
        change (firstn 5 (a :: l)) with (a :: firstn 4 l)
    end.
    split; [reflexivity|]. split; [reflexivity|].
    split; [|split; [|split]].
    + cbn [length]. generalize (firstn_le_length 4 others). lia.
    + cbn [length]. now rewrite length_firstn.
    + intros Hin. apply in_map_iff in Hin as (s & Hs & Hin).
      apply In_firstn in Hin. unfold others in Hin.
      apply (filter_other_ids sid (Widget.chatSessions st)).
      rewrite <- Hs at 1.
      exact (in_map Widget.id _ s Hin).
    + intros s Hin Hne. apply filter_In. split; [exact Hin|].
      rewrite (eqb_neq _ _ Hne). reflexivity.
  - intros Hnd. destruct (Widget.messages st) as [|m ms]; [exact Hnd|].
    unfold slice_first. rewrite <- firstn_map. apply NoDup_firstn.
    simpl. constructor; [apply filter_other_ids|].
    now apply NoDup_filter_ids.
Qed.

Lemma filter_absent_id (k : jsstring) (l : list Widget.ChatSession) :
  ~ In k (map Widget.id l) ->
  filter (fun s => negb (eqb (Widget.id s) k)) l = l.
Proof.
  induction l as [|s l IH]; simpl; [reflexivity|]. intros Hnin.
  rewrite eqb_neq by (intros E; apply Hnin; now left). simpl.
  rewrite IH; [reflexivity|]. intros Hin. apply Hnin. now right.
Qed.

(** Taking a listed chat out of a list without repeated ids removes
    exactly one id. *)
Lemma ids_without (session : Widget.ChatSession)
  (l : list Widget.ChatSession) :
  In session l -> NoDup (map Widget.id l) ->
  Permutation
    (Widget.id session ::
     map Widget.id
         (filter (fun s => negb (eqb (Widget.id s) (Widget.id session))) l))
    (map Widget.id l).
Proof.
  induction l as [|a l IH]; simpl; [intros []|].
  intros Hin Hnd. inversion Hnd as [|? ? Hnin Hnd']; subst.
  destruct (eqb (Widget.id a) (Widget.id session)) eqn:E; simpl.
  - apply eqb_eq in E. rewrite <- E in *.
    now rewrite (filter_absent_id (Widget.id a) l Hnin).
  - destruct Hin as [->|Hin]; [now rewrite eqb_refl in E|].
    rewrite perm_swap. constructor. now apply IH.
Qed.

(** X16: Choosing a chat from the list moves it to the head with a new
    timestamp and makes it the current session; the list keeps the same ids,
    each once, so it does not grow, and the copy in [localStorage] equals
    it. *)
Theorem handleChatHistoryClick_list (now : Z) (session : Widget.ChatSession)
  (st : Widget.State) :
  In session (Widget.chatSessions st) ->
  NoDup (map Widget.id (Widget.chatSessions st)) ->
  let st' := Widget.handleChatHistoryClick now session st in
  Permutation (map Widget.id (Widget.chatSessions st'))
              (map Widget.id (Widget.chatSessions st)) /\
  NoDup (map Widget.id (Widget.chatSessions st')) /\
  length (Widget.chatSessions st') = length (Widget.chatSessions st) /\
  (exists rest,
     Widget.chatSessions st' =
       Widget.mkChatSession (Widget.id session) (Widget.preview session) now
       :: rest /\
     incl rest (Widget.chatSessions st)) /\
  Widget.sessionId st' = Some (Widget.id session) /\
  Widget.storedSessionId st' = Some (Widget.id session) /\
  Widget.storedChatHistory st' = Some (Widget.chatSessions st').
Proof.
  intros Hin Hnd st'. subst st'. unfold Widget.handleChatHistoryClick.
  cbn [Widget.chatSessions Widget.sessionId Widget.storedSessionId
       Widget.storedChatHistory].
  assert (Hperm := ids_without session (Widget.chatSessions st) Hin Hnd).
  split; [exact Hperm|]. split.
  { apply (Permutation_NoDup (Permutation_sym Hperm) Hnd). }
  split.
  { apply Permutation_length in Hperm. simpl in Hperm.
    rewrite !length_map in Hperm. simpl. exact Hperm. }
  split; [|repeat split].
  eexists. split; [reflexivity|].
  intros x Hx. now apply filter_In in Hx.
Qed.

End PastChats.

Section ApiUrl.

Lemma dropSlashes_head (s : jsstring) :
  match Widget.dropSlashes s with
  | c :: _ => N.eqb c Widget.slash = false
  | [] => True
  end.
Proof.
  induction s as [|c s IH]; simpl; [exact I|].
  destruct (N.eqb c Widget.slash) eqn:Hc; [exact IH | exact Hc].
Qed.

Lemma stripTrailingSlashes_end (s : jsstring) :
  Widget.endsWithSlash (Widget.stripTrailingSlashes s) = false.
Proof.
  unfold Widget.endsWithSlash, Widget.stripTrailingSlashes.
  rewrite rev_involutive.
  generalize (dropSlashes_head (rev s)).
  now destruct (Widget.dropSlashes (rev s)).
Qed.

(** X17: The address of a route is the path put after the configured base,
    from which white space around it and every slash at its end were
    removed, so that a base written with a slash at the end and one without
    give the same address; without a base, or with a base of white space and
    slashes only, it is the path alone. *)
Theorem apiUrl_join (env : option jsstring) (path : jsstring) :
  exists base,
    Widget.apiUrl env path = base ++ path /\
    Widget.endsWithSlash base = false /\
    (env = None -> base = []) /\
    (forall s, env = Some s -> base = Widget.stripTrailingSlashes (trim s)).
Proof.
  unfold Widget.apiUrl, Widget.API_BASE_URL.
  destruct env as [s|].
  - exists (Widget.stripTrailingSlashes (trim s)).
    split; [|split; [apply stripTrailingSlashes_end|split]].
    + now destruct (Widget.stripTrailingSlashes (trim s)).
    + discriminate.
    + now intros s' [= <-].
  - exists []. repeat split. discriminate.
Qed.

Lemma dropSlashes_repeat (n : nat) (l : jsstring) :
  Widget.dropSlashes (repeat Widget.slash n ++ l) = Widget.dropSlashes l.
Proof. induction n as [|n IH]; simpl; [reflexivity | exact IH]. Qed.

Lemma dropSlashes_fixed (l : jsstring) :
  match l with c :: _ => N.eqb c Widget.slash = false | [] => True end ->
  Widget.dropSlashes l = l.
Proof. destruct l as [|c l]; simpl; [reflexivity|]. now intros ->. Qed.

(** X18: A base written with slashes at its end and the same base written
    without them give the same address for every path. *)
Theorem apiUrl_trailing_slashes (base path : jsstring) (n : nat) :
  trim base = base -> Widget.endsWithSlash base = false -> base <> [] ->
  Widget.apiUrl (Some (base ++ repeat Widget.slash n)) path = base ++ path.
Proof.
  intros Htrim Hend Hne.
  assert (Hlead : noLeading base) by (rewrite <- Htrim; apply trim_noLeading).
  assert (Htrail : noLeading (rev base))
    by (rewrite <- Htrim; apply trim_noTrailing).
  assert (Hfix : trim (base ++ repeat Widget.slash n)
                 = base ++ repeat Widget.slash n).
  { apply trim_fixed.
    - destruct base; [congruence | exact Hlead].
    - rewrite rev_app_distr, rev_repeat.
      destruct n; [exact Htrail | reflexivity]. }
  unfold Widget.apiUrl, Widget.API_BASE_URL. rewrite Hfix.
  unfold Widget.stripTrailingSlashes.
  rewrite rev_app_distr, rev_repeat, dropSlashes_repeat.
  rewrite dropSlashes_fixed.
  - rewrite rev_involutive. destruct base; [congruence | reflexivity].
  - unfold Widget.endsWithSlash in Hend.
    destruct (rev base); [exact I | exact Hend].
Qed.

End ApiUrl.

Lemma startNewChat_list_witness :
  NoDup (map Widget.id
           (Widget.chatSessions (WidgetScenario.chatting (lit "c")))) /\
  Widget.chatSessions
    (Widget.startNewChat (lit "unused") 9 (WidgetScenario.chatting (lit "c")))
  = [Widget.mkChatSession (lit "c") (lit "hello") 9;
     WidgetScenario.chat "a" 1; WidgetScenario.chat "b" 2;
     WidgetScenario.chat "d" 4; WidgetScenario.chat "e" 5] /\
  Widget.chatSessions
    (Widget.startNewChat (lit "unused") 9 (WidgetScenario.chatting (lit "z")))
  = [Widget.mkChatSession (lit "z") (lit "hello") 9;
     WidgetScenario.chat "a" 1; WidgetScenario.chat "b" 2;
     WidgetScenario.chat "c" 3; WidgetScenario.chat "d" 4] /\
  NoDup (map Widget.id
           (Widget.chatSessions
              (Widget.startNewChat (lit "unused") 9
                 (WidgetScenario.chatting (lit "c"))))).
Proof.
  assert (H : NoDup (map Widget.id
                (Widget.chatSessions (WidgetScenario.chatting (lit "c"))))).
  { repeat constructor; simpl;
      repeat (intros [E|E]; [vm_compute in E; discriminate E | revert E]);
      intros []. }
  split; [exact H|].
  destruct (startNewChat_list (lit "unused") 9
              (WidgetScenario.chatting (lit "c")))
    as (_ & _ & _ & _ & _ & _ & _ & Hc & Hnd).
  destruct (startNewChat_list (lit "unused") 9
              (WidgetScenario.chatting (lit "z")))
    as (_ & _ & _ & _ & _ & _ & _ & Hz & _).
  split; [exact (proj1 (Hc _ _ eq_refl))|].
  split; [exact (proj1 (Hz _ _ eq_refl))|].
  exact (Hnd H).
Defined.

Lemma handleChatHistoryClick_list_witness :
  In (Widget.mkChatSession (lit "b") (lit "second") 2)
     [Widget.mkChatSession (lit "a") (lit "first") 1;
      Widget.mkChatSession (lit "b") (lit "second") 2] /\
  NoDup (map Widget.id
           [Widget.mkChatSession (lit "a") (lit "first") 1;
            Widget.mkChatSession (lit "b") (lit "second") 2]) /\
  length
    (Widget.chatSessions
       (Widget.handleChatHistoryClick 7
          (Widget.mkChatSession (lit "b") (lit "second") 2)
          (Widget.mkState None [] [] false None
             [Widget.mkChatSession (lit "a") (lit "first") 1;
              Widget.mkChatSession (lit "b") (lit "second") 2]
             true None None))) = 2%nat.
Proof.
  assert (Hin : In (Widget.mkChatSession (lit "b") (lit "second") 2)
                   [Widget.mkChatSession (lit "a") (lit "first") 1;
                    Widget.mkChatSession (lit "b") (lit "second") 2])
    by (right; left; reflexivity).
  assert (Hnd : NoDup (map Widget.id
                   [Widget.mkChatSession (lit "a") (lit "first") 1;
                    Widget.mkChatSession (lit "b") (lit "second") 2])).
  { repeat constructor; simpl; [|tauto].
    intros [E|[]]. vm_compute in E. discriminate E. }
  split; [exact Hin|]. split; [exact Hnd|].
  exact (proj1 (proj2 (proj2
           (handleChatHistoryClick_list 7
              (Widget.mkChatSession (lit "b") (lit "second") 2)
              (Widget.mkState None [] [] false None
                 [Widget.mkChatSession (lit "a") (lit "first") 1;
                  Widget.mkChatSession (lit "b") (lit "second") 2]
                 true None None) Hin Hnd)))).
Defined.

Lemma apiUrl_trailing_slashes_witness :
  trim (lit "http://localhost:4000") = lit "http://localhost:4000" /\
  Widget.endsWithSlash (lit "http://localhost:4000") = false /\
  lit "http://localhost:4000" <> [] /\
  Widget.apiUrl (Some (lit "http://localhost:4000" ++ repeat Widget.slash 2))
                (lit "/chat/message") =
  lit "http://localhost:4000" ++ lit "/chat/message".
Proof.
  assert (H1 : trim (lit "http://localhost:4000") = lit "http://localhost:4000")
    by (vm_compute; reflexivity).
  assert (H2 : Widget.endsWithSlash (lit "http://localhost:4000") = false)
    by (vm_compute; reflexivity).
  assert (H3 : lit "http://localhost:4000" <> []) by (vm_compute; discriminate).
  split; [exact H1|]. split; [exact H2|]. split; [exact H3|].
  exact (apiUrl_trailing_slashes (lit "http://localhost:4000")
           (lit "/chat/message") 2 H1 H2 H3).
Defined.

(* ===================================================================== *)
(** ** The history a turn hands to the generator *)
(* ===================================================================== *)

Section HistoryHanded.

Variables (env : LlmEnv) (rt : Runtime).

Lemma rowsOf_afterUserTurn (body : ChatRequestBody) (msg : jsstring) (d : Db) :
  rowsOf (resolvedSession rt body) (afterUserTurn rt body msg d) =
  rowsOf (resolvedSession rt body) d ++ [userRow rt body msg d].
Proof.
  unfold afterUserTurn, rowsOf, withMessage. cbn [messages].
  rewrite messages_afterResolve, filter_app. simpl. now rewrite eqb_refl.
Qed.

Lemma messagesOf_length (sid : jsstring) (d : Db) :
  length (messagesOf sid d) = length (rowsOf sid d).
Proof. symmetry. apply Permutation_length, messagesOf_perm. Qed.

(** With no row of the session later than the request, the user row just
    inserted is the last row the history query sorts. *)
Lemma messagesOf_afterUserTurn (body : ChatRequestBody) (msg : jsstring)
  (d : Db) :
  Forall (fun m => (created_at m <= now rt)%Z)
         (rowsOf (resolvedSession rt body) d) ->
  messagesOf (resolvedSession rt body) (afterUserTurn rt body msg d) =
  messagesOf (resolvedSession rt body) d ++ [userRow rt body msg d].
Proof.
  intros Hold. unfold messagesOf.
  fold (rowsOf (resolvedSession rt body) (afterUserTurn rt body msg d)).
  fold (rowsOf (resolvedSession rt body) d).
  rewrite rowsOf_afterUserTurn. now apply orderByCreatedAt_snoc.
Qed.

Lemma generate_call_made (t : jsstring) (sess : option jsstring) (w : World) :
  let body := mkChatRequestBody (Some t) sess in
  admissible t ->
  sessionResolves rt body (db w) = true ->
  In (AwaitGenerateReply
        (historyHanded (resolvedSession rt body)
           (afterUserTurn rt body (trim t) (db w)))
        (trim t))
     (calls (snd (postChatMessage env rt body w))).
Proof.
  intros body Hadm Hok. subst body.
  rewrite (postChatMessage_ok env rt t sess w Hadm Hok). cbv zeta.
  cbn [snd calls]. unfold turnCalls.
  apply in_or_app. right. apply in_or_app. right.
  right. right. left. reflexivity.
Qed.

Lemma slice_last_snoc {A : Type} (n : nat) (l : list A) (x : A) :
  slice_last (S n) (l ++ [x]) = slice_last n l ++ [x].
Proof.
  unfold slice_last. rewrite length_app, skipn_app. simpl length.
  replace (length l + 1 - S n)%nat with (length l - n)%nat by lia.
  replace (length l - n - length l)%nat with 0%nat by lia.
  reflexivity.
Qed.

(** X11: In a conversation of fewer than twenty rows, none later than the
    request, the generator is called with the history read before the turn
    followed by the message of the turn itself, as the table keeps it: the
    request to the provider then ends with two user messages, the stored
    text of the turn and the text of the turn cut to 1000 code units, which
    are the same text when it is well formed and no longer than 1000. *)
Theorem user_text_sent_twice (t : jsstring) (sess : option jsstring)
  (w : World) :
  let body := mkChatRequestBody (Some t) sess in
  let sid := resolvedSession rt body in
  let history :=
    historyHanded sid (db w) ++ [mkChatMessage user (toWellFormed (trim t))] in
  admissible t ->
  sessionResolves rt body (db w) = true ->
  Forall (fun m => (created_at m <= now rt)%Z) (rowsOf sid (db w)) ->
  (length (rowsOf sid (db w)) < 20)%nat ->
  In (AwaitGenerateReply history (trim t))
     (calls (snd (postChatMessage env rt body w))) /\
  (exists before,
     requestMessages history (trim t) =
     before ++ [mkApiMessage api_user (toWellFormed (trim t));
                mkApiMessage api_user (truncatedUserMessage (trim t))]) /\
  (isWellFormed (trim t) = true -> (length (trim t) <= 1000)%nat ->
   exists before,
     requestMessages history (trim t) =
     before ++ [mkApiMessage api_user (trim t);
                mkApiMessage api_user (trim t)]).
Proof.
  intros body sid history Hadm Hok Hold Hlen.
  assert (Hh : historyHanded sid (afterUserTurn rt body (trim t) (db w))
               = history).
  { unfold history, historyHanded, sid.
    rewrite (messagesOf_afterUserTurn body (trim t) (db w) Hold).
    unfold limit. rewrite !firstn_all2.
    - now rewrite !map_app.
    - rewrite messagesOf_length. fold sid. lia.
    - rewrite length_app, messagesOf_length. fold sid. simpl. lia. }
  assert (Hreq : requestMessages history (trim t) =
                 (mkApiMessage api_system SYSTEM_PROMPT
                  :: map apiMessage (slice_last 9 (historyHanded sid (db w))))
                 ++ [mkApiMessage api_user (toWellFormed (trim t));
                     mkApiMessage api_user (truncatedUserMessage (trim t))]).
  { unfold requestMessages, contextWindow, history.
    rewrite (slice_last_snoc 9), map_app. simpl. now rewrite <- app_assoc. }
  split; [|split].
  - rewrite <- Hh. now apply generate_call_made.
  - eexists. exact Hreq.
  - intros Hwf Hshort. eexists. rewrite Hreq.
    rewrite (toWellFormed_fixed (trim t) Hwf).
    unfold truncatedUserMessage.
    apply Nat.ltb_ge in Hshort. rewrite Hshort. reflexivity.
Qed.

(** X12: Once a conversation has twenty rows, none later than the request, the
    generator is called with the same twenty oldest rows at every turn: the
    message of the turn and everything after the twentieth row stay out of
    its history. *)
Theorem history_frozen_after_twenty (t : jsstring) (sess : option jsstring)
  (w : World) :
  let body := mkChatRequestBody (Some t) sess in
  let sid := resolvedSession rt body in
  admissible t ->
  sessionResolves rt body (db w) = true ->
  Forall (fun m => (created_at m <= now rt)%Z) (rowsOf sid (db w)) ->
  (20 <= length (rowsOf sid (db w)))%nat ->
  In (AwaitGenerateReply (historyHanded sid (db w)) (trim t))
     (calls (snd (postChatMessage env rt body w))) /\
  length (historyHanded sid (db w)) = 20%nat.
Proof.
  intros body sid Hadm Hok Hold Hlen.
  assert (Hh : historyHanded sid (afterUserTurn rt body (trim t) (db w))
               = historyHanded sid (db w)).
  { unfold historyHanded, sid.
    rewrite (messagesOf_afterUserTurn body (trim t) (db w) Hold).
    unfold limit. rewrite firstn_app.
    replace (20 - length (messagesOf (resolvedSession rt body) (db w)))%nat
      with 0%nat by (rewrite messagesOf_length; fold sid; lia).
    simpl. now rewrite app_nil_r. }
  split.
  - rewrite <- Hh. now apply generate_call_made.
  - unfold historyHanded, limit. rewrite !length_map, length_firstn.
    rewrite messagesOf_length. lia.
Qed.

End HistoryHanded.

Lemma user_text_sent_twice_witness :
  admissible (Scenario.letter 2) /\
  sessionResolves (Scenario.rt_k 2) (Scenario.body_k 2)
    (db (Scenario.exchanges Scenario.env_ok 1)) = true /\
  In (AwaitGenerateReply
        [Scenario.turn 1; Scenario.ok; Scenario.turn 2] (Scenario.letter 2))
     (calls (snd (postChatMessage Scenario.env_ok (Scenario.rt_k 2)
                    (Scenario.body_k 2)
                    (Scenario.exchanges Scenario.env_ok 1)))) /\
  exists before,
    requestMessages [Scenario.turn 1; Scenario.ok; Scenario.turn 2]
                    (Scenario.letter 2) =
    before ++ [mkApiMessage api_user (Scenario.letter 2);
               mkApiMessage api_user (Scenario.letter 2)].
Proof.
  assert (Hadm : admissible (Scenario.letter 2)).
  { split; [vm_compute; discriminate|].
    apply Nat.leb_le. vm_compute. reflexivity. }
  assert (Hok : sessionResolves (Scenario.rt_k 2) (Scenario.body_k 2)
                  (db (Scenario.exchanges Scenario.env_ok 1)) = true)
    by (vm_compute; reflexivity).
  assert (Hold : Forall (fun m => (created_at m <= now (Scenario.rt_k 2))%Z)
                   (rowsOf Scenario.sid1
                      (db (Scenario.exchanges Scenario.env_ok 1)))).
  { vm_compute. repeat constructor; discriminate. }
  assert (Hlen : (length (rowsOf Scenario.sid1
                            (db (Scenario.exchanges Scenario.env_ok 1)))
                  < 20)%nat)
    by (apply Nat.ltb_lt; vm_compute; reflexivity).
  destruct (user_text_sent_twice Scenario.env_ok (Scenario.rt_k 2)
              (Scenario.letter 2) (Some Scenario.sid1)
              (Scenario.exchanges Scenario.env_ok 1) Hadm Hok Hold Hlen)
    as (Hcall & _ & Hsame).
  split; [exact Hadm|]. split; [exact Hok|]. split; [exact Hcall|].
  apply Hsame.
  - vm_compute. reflexivity.
  - apply Nat.leb_le. vm_compute. reflexivity.
Defined.

Lemma history_frozen_after_twenty_witness :
  admissible (Scenario.letter 26) /\
  sessionResolves (Scenario.rt_k 26) (Scenario.body_k 26)
    (db (Scenario.exchanges Scenario.env_ok 25)) = true /\
  Forall (fun m => (created_at m <= now (Scenario.rt_k 26))%Z)
         (rowsOf Scenario.sid1 (db (Scenario.exchanges Scenario.env_ok 25))) /\
  (20 <= length (rowsOf Scenario.sid1
                   (db (Scenario.exchanges Scenario.env_ok 25))))%nat /\
  In (AwaitGenerateReply
        (historyHanded Scenario.sid1
           (db (Scenario.exchanges Scenario.env_ok 25)))
        (Scenario.letter 26))
     (calls (snd (postChatMessage Scenario.env_ok (Scenario.rt_k 26)
                    (Scenario.body_k 26)
                    (Scenario.exchanges Scenario.env_ok 25)))).
Proof.
  assert (Hadm : admissible (Scenario.letter 26)).
  { split; [vm_compute; discriminate|].
    apply Nat.leb_le. vm_compute. reflexivity. }
  assert (Hok : sessionResolves (Scenario.rt_k 26) (Scenario.body_k 26)
                  (db (Scenario.exchanges Scenario.env_ok 25)) = true)
    by (vm_compute; reflexivity).
  assert (Hold : Forall (fun m => (created_at m <= now (Scenario.rt_k 26))%Z)
                   (rowsOf Scenario.sid1
                      (db (Scenario.exchanges Scenario.env_ok 25)))).
  { apply Forall_forall. intros m Hm. apply Z.leb_le.
    revert m Hm. apply Forall_forall.
    vm_compute. repeat constructor. }
  assert (Hlen : (20 <= length (rowsOf Scenario.sid1
                            (db (Scenario.exchanges Scenario.env_ok 25))))%nat)
    by (apply Nat.leb_le; vm_compute; reflexivity).
  split; [exact Hadm|]. split; [exact Hok|]. split; [exact Hold|].
  split; [exact Hlen|].
  exact (proj1 (history_frozen_after_twenty Scenario.env_ok (Scenario.rt_k 26)
                  (Scenario.letter 26) (Some Scenario.sid1)
                  (Scenario.exchanges Scenario.env_ok 25)
                  Hadm Hok Hold Hlen)).
Defined.
